(** * Xapian: the database backend interface and the value-range posting list

    A shallow embedding of
      - common/database.h          (Xapian::Database::Internal)
      - matcher/valuerangepostlist.cc (ValueRangePostList)
    followed by the properties of the iteration protocol that are stated
    about them.

    Conventions.
      - [Xapian::docid], [Xapian::doccount] and [Xapian::valueno] are unsigned
        32-bit integers: they are modelled in [Z], and the two places where
        the code does arithmetic on a docid ([++current], [did - 1]) have the
        wrap-around written out.
      - A C++ method that can throw, or that changes the object, is a
        function from the object to an [Outcome] carrying the object as it
        is left behind.
      - [std::string] is [string]; [operator<=] on it is the unsigned
        lexicographic order [String.leb]. *)

From Stdlib Require Import ZArith List String Ascii Bool Lia QArith.
Import ListNotations.

Open Scope Z_scope.

(* ------------------------------------------------------------------ *)
(** ** Basic types (xapian/types.h)                                     *)
(* ------------------------------------------------------------------ *)

Definition docid := Z.
Definition doccount := Z.
Definition valueno := Z.
Definition termpos := Z.

(** [Xapian::weight] and [Xapian::doclength] are doubles.  The code below
    only ever produces the constant [0] and never inspects a weight it is
    given, so exact rationals are enough to carry them. *)
Definition weight := Q.
Definition doclength := Q.

Definition docid_modulus : Z := 2 ^ 32.

(** [++current] on an unsigned docid. *)
Definition docid_incr (d : docid) : docid := (d + 1) mod docid_modulus.

(** [did - 1] on an unsigned docid. *)
Definition docid_pred (d : docid) : docid := (d - 1) mod docid_modulus.

(** The values of an unsigned docid, and of an unsigned document count. *)
Definition is_docid (d : Z) : Prop := 0 <= d < docid_modulus.

Definition is_doccount (n : Z) : Prop := 0 <= n < docid_modulus.

(* ------------------------------------------------------------------ *)
(** ** Errors and outcomes                                              *)
(* ------------------------------------------------------------------ *)

(** The exception classes that matter here.  [DatabaseError] stands for any
    exception of a backend that is not a [DocNotFoundError]. *)
Inductive Error : Type :=
| AssertionError
| DocNotFoundError
| DatabaseError.

Definition is_DocNotFoundError (e : Error) : bool :=
  match e with DocNotFoundError => true | _ => false end.

(** Result of a call into a backend: a value or a thrown exception. *)
Inductive result (A : Type) : Type :=
| Value (a : A)
| Throw (e : Error).
Arguments Value {A} a.
Arguments Throw {A} e.

Definition result_bind {A B} (r : result A) (k : A -> result B) : result B :=
  match r with
  | Value a => k a
  | Throw e => Throw e
  end.

(** Outcome of a method call on an object of type [St]:
      - [Returned a s]: the call returned [a], the object is now [s];
      - [Raised e s]:   exception [e] left the call, the object is [s];
      - [NullDeref s]:  the call went through a null [db] pointer
                        (undefined behaviour in C++; kept apart so that it
                        is never mistaken for a result);
      - [OutOfFuel]:    the model of a loop ran out of steps (shown below
                        not to happen). *)
Inductive Outcome (St A : Type) : Type :=
| Returned (a : A) (s : St)
| Raised (e : Error) (s : St)
| NullDeref (s : St)
| OutOfFuel.
Arguments Returned {St A} a s.
Arguments Raised {St A} e s.
Arguments NullDeref {St A} s.
Arguments OutOfFuel {St A}.

Definition M (St A : Type) : Type := St -> Outcome St A.

Definition ret {St A} (a : A) : M St A := fun s => Returned a s.

Definition bind {St A B} (m : M St A) (k : A -> M St B) : M St B :=
  fun s =>
    match m s with
    | Returned a s' => k a s'
    | Raised e s' => Raised e s'
    | NullDeref s' => NullDeref s'
    | OutOfFuel => OutOfFuel
    end.

Declare Scope xapian_scope.
Delimit Scope xapian_scope with xapian.
Notation "x <- m ;; k" := (bind m (fun x => k))
  (at level 61, m at next level, right associativity) : xapian_scope.
Notation "m ;; k" := (bind m (fun _ => k))
  (at level 61, right associativity) : xapian_scope.

(** The object a call leaves behind, when there is one. *)
Definition final_state {St A} (o : Outcome St A) : option St :=
  match o with
  | Returned _ s | Raised _ s | NullDeref s => Some s
  | OutOfFuel => None
  end.

(* ------------------------------------------------------------------ *)
(** ** Assertions (omassert.h)                                           *)
(* ------------------------------------------------------------------ *)

(** [Assert] and [AssertParanoid] are macros of omassert.h, which is
    configured when the library is built.  The build is a parameter of
    every function that uses them: [Assert(c)] throws [AssertionError] on a
    false [c] when assertions are compiled in and is empty otherwise;
    [AssertParanoid(c)] does the same in a paranoid build only. *)
Inductive AssertLevel : Type :=
| NoAssertions
| Assertions
| ParanoidAssertions.

Definition assert_on (lvl : AssertLevel) : bool :=
  match lvl with NoAssertions => false | _ => true end.

Definition paranoid_on (lvl : AssertLevel) : bool :=
  match lvl with ParanoidAssertions => true | _ => false end.

Definition Assert {St} (lvl : AssertLevel) (c : St -> bool) : M St unit :=
  fun s =>
    if assert_on lvl && negb (c s) then Raised AssertionError s
    else Returned tt s.

(* ------------------------------------------------------------------ *)
(** ** Documents                                                         *)
(* ------------------------------------------------------------------ *)

(** [Xapian::Document] as far as the backend interface needs it: the data
    blob and the values by slot.  [get_value] returns the empty string for
    a slot without a value (xapian/document.h). *)
Record Document : Type := {
  doc_data : string;
  doc_values : list (valueno * string)
}.

Fixpoint lookup_value (vs : list (valueno * string)) (n : valueno) : string :=
  match vs with
  | [] => EmptyString
  | (k, v) :: vs' => if k =? n then v else lookup_value vs' n
  end.

Definition Document_get_value (d : Document) (n : valueno) : string :=
  lookup_value (doc_values d) n.

(** [Xapian::Document::Internal]: a handle produced by [open_document].  A
    lazily opened handle touches storage on first read, so [get_value] can
    itself throw. *)
Record Document_Internal : Type := {
  get_value : valueno -> result string
}.

(* ------------------------------------------------------------------ *)
(** ** Leaf posting lists handed out by a backend                        *)
(* ------------------------------------------------------------------ *)

(** A posting list built by a backend's [do_open_post_list], as its caller
    observes it: whether it reports [at_end] when handed out, and the
    document ids it yields when run to its end. *)
Record BackendCursor : Type := {
  bc_at_end : bool;
  bc_yield : list docid
}.

(** What [open_post_list] can return: the [EmptyPostList] built by the
    interface itself, or the list built by the backend. *)
Inductive LeafPostList : Type :=
| EmptyPostList
| BackendPostList (c : BackendCursor).

(** Modelled from the spec: the class [EmptyPostList] (emptypostlist.h) -
    an empty cursor, terminated from the start. *)
Definition EmptyPostList_at_end : bool := true.

(** Modelled from the spec: the class [EmptyPostList] (emptypostlist.h) -
    it yields no document. *)
Definition EmptyPostList_yield : list docid := [].

Definition LeafPostList_at_end (pl : LeafPostList) : bool :=
  match pl with
  | EmptyPostList => EmptyPostList_at_end
  | BackendPostList c => bc_at_end c
  end.

(** The document ids a leaf posting list yields when it is run to its end. *)
Definition LeafPostList_yield (pl : LeafPostList) : list docid :=
  match pl with
  | EmptyPostList => EmptyPostList_yield
  | BackendPostList c => bc_yield c
  end.

(* ------------------------------------------------------------------ *)
(** ** Database::Internal (common/database.h)                            *)
(* ------------------------------------------------------------------ *)

(** The pure virtual part of the interface that the code below calls; a
    backend is a value of this record.  [open_document did lazy] either
    gives a handle or throws. *)
Record Database : Type := {
  get_doccount : doccount;
  get_lastdocid : docid;
  term_exists : string -> bool;
  do_open_post_list : string -> LeafPostList;
  open_document : docid -> bool -> result Document_Internal
}.

(** [Database::Internal::open_post_list]. *)
Definition open_post_list (d : Database) (tname : string) : LeafPostList :=
  if negb (term_exists d tname) then
    (* Term doesn't exist in this database: an (empty) postlist. *)
    EmptyPostList
  else do_open_post_list d tname.

(** [Database::Internal::collect_document]: the default is [open_document]
    with its default argument [lazy = false]. *)
Definition collect_document (d : Database) (did : docid) : result Document_Internal :=
  open_document d did false.

(** *** Default bodies of the mutation entry points

    "Writable databases should override this method."  The bodies do not
    touch the database, so they are stated over any backend state [St]. *)
Section DefaultMutations.
Context {St : Type}.
Variable lvl : AssertLevel.

Open Scope xapian_scope.

Definition Internal_flush : M St unit :=
  Assert lvl (fun _ => false).

Definition Internal_add_document (document : Document) : M St docid :=
  Assert lvl (fun _ => false) ;;
  ret 0.

Definition Internal_delete_document (did : docid) : M St unit :=
  Assert lvl (fun _ => false).

Definition Internal_replace_document (did : docid) (document : Document) : M St unit :=
  Assert lvl (fun _ => false).
End DefaultMutations.

(** The virtual mutation methods of a backend with state [St]. *)
Record MutationMethods (St : Type) : Type := {
  flush : M St unit;
  add_document : Document -> M St docid;
  delete_document : docid -> M St unit;
  replace_document : docid -> Document -> M St unit
}.
Arguments flush {St} _.
Arguments add_document {St} _.
Arguments delete_document {St} _.
Arguments replace_document {St} _.

(** A backend that overrides none of them. *)
Definition inherited_mutations (lvl : AssertLevel) (St : Type) : MutationMethods St := {|
  flush := Internal_flush lvl;
  add_document := Internal_add_document lvl;
  delete_document := Internal_delete_document lvl;
  replace_document := Internal_replace_document lvl
|}.

(* ------------------------------------------------------------------ *)
(** ** ValueRangePostList (matcher/valuerangepostlist.cc)                *)
(* ------------------------------------------------------------------ *)

(** The data members.  [db] is a pointer to the backend: [None] is [NULL].
    [begin_] and [end_] are the members [begin] and [end]. *)
Record ValueRangePostList : Type := {
  db : option Database;
  valno : valueno;
  begin_ : string;
  end_ : string;
  current : docid;
  lastdocid : docid;
  db_size : doccount
}.

Definition set_current (p : ValueRangePostList) (c : docid) : ValueRangePostList :=
  {| db := db p; valno := valno p; begin_ := begin_ p; end_ := end_ p;
     current := c; lastdocid := lastdocid p; db_size := db_size p |}.

(** [db = NULL;] *)
Definition set_db_null (p : ValueRangePostList) : ValueRangePostList :=
  {| db := None; valno := valno p; begin_ := begin_ p; end_ := end_ p;
     current := current p; lastdocid := lastdocid p; db_size := db_size p |}.

(** Modelled from the spec: the constructor (valuerangepostlist.h).  A new
    cursor is unstarted - [current] is the reserved id 0 - and caches the
    backend's last docid and document count, the two equalities that the
    paranoid assertions of the methods re-check. *)
Definition new_ValueRangePostList (d : Database) (n : valueno) (b e : string)
  : ValueRangePostList :=
  {| db := Some d; valno := n; begin_ := b; end_ := e;
     current := 0; lastdocid := get_lastdocid d; db_size := get_doccount d |}.

Definition db_not_null (p : ValueRangePostList) : bool :=
  match db p with Some _ => true | None => false end.

(** [PositionList *]: the only value produced here is [NULL]. *)
Definition PositionList := list termpos.

Section Methods.
Variable lvl : AssertLevel.

Local Abbreviation VM := (M ValueRangePostList).
Open Scope xapian_scope.

(** [AssertParanoid(!db || db_size == db->get_doccount())] *)
Definition AssertParanoid_db_size : VM unit :=
  fun p =>
    if paranoid_on lvl then
      match db p with
      | None => Returned tt p
      | Some d =>
          if db_size p =? get_doccount d then Returned tt p
          else Raised AssertionError p
      end
    else Returned tt p.

(** [AssertParanoid(lastdocid == db->get_lastdocid())]: the condition
    goes through [db]. *)
Definition AssertParanoid_lastdocid : VM unit :=
  fun p =>
    if paranoid_on lvl then
      match db p with
      | None => NullDeref p
      | Some d =>
          if lastdocid p =? get_lastdocid d then Returned tt p
          else Raised AssertionError p
      end
    else Returned tt p.

Definition get_termfreq_min : VM doccount :=
  ret 0.

Definition get_termfreq_est : VM doccount :=
  AssertParanoid_db_size ;;
  fun p => Returned (db_size p / 2) p.

Definition get_termfreq_max : VM doccount :=
  AssertParanoid_db_size ;;
  fun p => Returned (db_size p) p.

Definition get_maxweight : VM weight :=
  ret 0%Q.

Definition get_docid : VM docid :=
  Assert lvl (fun p => negb (current p =? 0)) ;;
  Assert lvl db_not_null ;;
  fun p => Returned (current p) p.

Definition get_weight : VM weight :=
  Assert lvl db_not_null ;;
  ret 0%Q.

Definition get_doclength : VM doclength :=
  Assert lvl db_not_null ;;
  ret 0%Q.

Definition recalc_maxweight : VM weight :=
  Assert lvl db_not_null ;;
  ret 0%Q.

Definition read_position_list : VM (option PositionList) :=
  Assert lvl db_not_null ;;
  ret None.

Definition open_position_list : VM (option PositionList) :=
  Assert lvl db_not_null ;;
  ret None.

(** [v >= begin && v <= end] *)
Definition in_range (p : ValueRangePostList) (v : string) : bool :=
  String.leb (begin_ p) v && String.leb v (end_ p).

Definition string_empty (v : string) : bool :=
  match v with EmptyString => true | _ => false end.

(** The [try] block of [next], for the backend [d] that [db] points to.
    [Value true]: the block reached [return NULL]; [Value false]: it fell
    through to the end of the loop body; [Throw e]: [e] was thrown inside
    it. *)
Definition next_try (d : Database) (p : ValueRangePostList) : result bool :=
  result_bind (open_document d (current p) true) (fun doc =>
  result_bind (get_value doc (valno p)) (fun v =>
    if in_range p v then
      if string_empty v then
        result_bind (open_document d (current p) false) (fun _ => Value true)
      else Value true
    else Value false)).

(** The [while] loop of [next] and the two statements after it.  Each
    unit of [fuel] pays for one evaluation of the loop condition. *)
Fixpoint next_loop (fuel : nat) (p : ValueRangePostList)
  : Outcome ValueRangePostList unit :=
  match fuel with
  | O => OutOfFuel
  | S fuel' =>
      if current p <? lastdocid p then
        let p1 := set_current p (docid_incr (current p)) in
        if current p1 =? 0 then Returned tt (set_db_null p1)
        else
          match db p1 with
          | None => NullDeref p1
          | Some d =>
              match next_try d p1 with
              | Value true => Returned tt p1
              | Value false => next_loop fuel' p1
              | Throw DocNotFoundError => next_loop fuel' p1
              | Throw e => Raised e p1
              end
          end
      else Returned tt (set_db_null p)
  end.

(** Loop conditions that [next] evaluates at most, from [p]. *)
Definition next_fuel (p : ValueRangePostList) : nat :=
  S (Z.to_nat (lastdocid p - current p)).

Definition next (w_min : weight) : VM unit :=
  Assert lvl db_not_null ;;
  AssertParanoid_lastdocid ;;
  fun p => next_loop (next_fuel p) p.

Definition skip_to (did : docid) (w_min : weight) : VM unit :=
  Assert lvl db_not_null ;;
  fun p =>
    if did <=? current p then Returned tt p
    else next w_min (set_current p (docid_pred did)).

(** The [try] block of [check]; results as for [next_try]. *)
Definition check_try (d : Database) (p : ValueRangePostList) : result bool :=
  result_bind (open_document d (current p) true) (fun doc =>
  result_bind (get_value doc (valno p)) (fun v =>
    if in_range p v then Value true else Value false)).

(** [check]: the value returned is what the call leaves in [valid]. *)
Definition check (did : docid) (w_min : weight) : VM bool :=
  Assert lvl db_not_null ;;
  fun p =>
    if did <=? current p then Returned true p
    else
      (AssertParanoid_lastdocid ;;
       fun p =>
         if lastdocid p <? did then Returned true (set_db_null p)
         else
           let p1 := set_current p did in
           match db p1 with
           | None => NullDeref p1
           | Some d =>
               match check_try d p1 with
               | Value true => Returned true p1
               | Value false => Returned false p1
               | Throw DocNotFoundError => Returned false p1
               | Throw e => Raised e p1
               end
           end) p.

Definition at_end (p : ValueRangePostList) : bool :=
  negb (db_not_null p).

End Methods.

(* ------------------------------------------------------------------ *)
(** ** Driving a cursor                                                  *)
(* ------------------------------------------------------------------ *)

(** The operations that move a cursor. *)
Inductive Advance : Type :=
| DoNext (w_min : weight)
| DoSkipTo (did : docid) (w_min : weight)
| DoCheck (did : docid) (w_min : weight).

(** The cursor an advancing call leaves behind, however the call ends. *)
Definition advance (lvl : AssertLevel) (a : Advance) (p : ValueRangePostList)
  : option ValueRangePostList :=
  match a with
  | DoNext w => final_state (next lvl w p)
  | DoSkipTo did w => final_state (skip_to lvl did w p)
  | DoCheck did w => final_state (check lvl did w p)
  end.

(** [later lvl p p']: [p'] is [p] after any number of advancing calls. *)
Inductive later (lvl : AssertLevel) (p : ValueRangePostList)
  : ValueRangePostList -> Prop :=
| later_now : later lvl p p
| later_step (a : Advance) (p1 p2 : ValueRangePostList) :
    later lvl p p1 -> advance lvl a p1 = Some p2 -> later lvl p p2.

(** The matcher's loop: call [next] until [at_end], collecting the docids
    the cursor stops on, together with the cursor at the end.  [None] when a
    call does not return, or when [n] calls were not enough. *)
Fixpoint run_to_end (lvl : AssertLevel) (n : nat) (p : ValueRangePostList)
  : option (list docid * ValueRangePostList) :=
  match n with
  | O => None
  | S n' =>
      match next lvl 0%Q p with
      | Returned _ p' =>
          if at_end p' then Some ([], p')
          else
            match run_to_end lvl n' p' with
            | Some (ds, pe) => Some (current p' :: ds, pe)
            | None => None
            end
      | _ => None
      end
  end.

(* ------------------------------------------------------------------ *)
(** ** Two small backends for the scenarios                              *)
(* ------------------------------------------------------------------ *)

Fixpoint find_document (docs : list (docid * Document)) (did : docid)
  : option Document :=
  match docs with
  | [] => None
  | (k, d) :: docs' => if k =? did then Some d else find_document docs' did
  end.

Definition handle_of (d : Document) : Document_Internal :=
  {| get_value := fun n => Value (Document_get_value d n) |}.

Definition no_postings : BackendCursor := {| bc_at_end := true; bc_yield := [] |}.

(** A backend that keeps its documents in a table and, like the in-memory
    backend mentioned in [next], ignores the [lazy] flag: opening an id
    that is not in the table throws at once. *)
Definition eager_database (docs : list (docid * Document)) (last : docid) : Database :=
  {| get_doccount := Z.of_nat (List.length docs);
     get_lastdocid := last;
     term_exists := fun _ => false;
     do_open_post_list := fun _ => BackendPostList no_postings;
     open_document := fun did _ =>
       match find_document docs did with
       | Some d => Value (handle_of d)
       | None => Throw DocNotFoundError
       end |}.

(** A backend that honours the [lazy] flag the way [next] expects in
    theory: a lazy open never throws, and a handle on an id without a
    document has no values; only the open with [lazy = false] throws. *)
Definition lazy_database (docs : list (docid * Document)) (last : docid) : Database :=
  {| get_doccount := Z.of_nat (List.length docs);
     get_lastdocid := last;
     term_exists := fun _ => false;
     do_open_post_list := fun _ => BackendPostList no_postings;
     open_document := fun did lazy =>
       match find_document docs did with
       | Some d => Value (handle_of d)
       | None =>
           if lazy then Value (handle_of {| doc_data := EmptyString; doc_values := [] |})
           else Throw DocNotFoundError
       end |}.

Definition doc_with_value (n : valueno) (v : string) : Document :=
  {| doc_data := EmptyString; doc_values := if string_empty v then [] else [(n, v)] |}.

(** Five documents, ids 1 to 5, with the slot-3 values
    "050", "150", "200", "250" and none. *)
Definition five_documents : list (docid * Document) :=
  [ (1, doc_with_value 3 "050"%string); (2, doc_with_value 3 "150"%string);
    (3, doc_with_value 3 "200"%string); (4, doc_with_value 3 "250"%string);
    (5, doc_with_value 3 ""%string) ].

Definition five_db : Database := eager_database five_documents 5.

Definition five_cursor : ValueRangePostList :=
  new_ValueRangePostList five_db 3 "100"%string "200".

(** Ids 1 to 3 were handed out, document 2 has been deleted since. *)
Definition holed_db : Database :=
  eager_database [ (1, doc_with_value 3 "150"%string); (3, doc_with_value 3 "160"%string) ] 3.

Definition holed_cursor : ValueRangePostList :=
  new_ValueRangePostList holed_db 3 "100"%string "200".

(** The same hole behind a backend that opens lazily, scanned with an empty
    lower bound. *)
Definition lazy_holed_db : Database :=
  lazy_database [ (1, doc_with_value 3 "150"%string); (3, doc_with_value 3 "160"%string) ] 3.

Definition lazy_holed_cursor : ValueRangePostList :=
  new_ValueRangePostList lazy_holed_db 3 ""%string "200".

(* ------------------------------------------------------------------ *)
(** ** Predicates used in the statements                                 *)
(* ------------------------------------------------------------------ *)

(** Docid fields are in range, and the cached figures are the backend's:
    what the constructor establishes. *)
Definition valid_cursor (p : ValueRangePostList) : Prop :=
  is_docid (current p) /\ is_docid (lastdocid p) /\ is_doccount (db_size p) /\
  forall d, db p = Some d ->
    lastdocid p = get_lastdocid d /\ db_size p = get_doccount d.

(** Document [i] has a value in slot [valno p] within [[begin_ p, end_ p]]. *)
Definition value_in_range (d : Database) (p : ValueRangePostList) (i : docid) : Prop :=
  exists doc v,
    open_document d i true = Value doc /\
    get_value doc (valno p) = Value v /\
    in_range p v = true.

(** Document [i] has vanished as far as [check] can tell: one of its two
    calls into the backend throws [DocNotFoundError]. *)
Definition vanished_lazily (d : Database) (p : ValueRangePostList) (i : docid) : Prop :=
  open_document d i true = Throw DocNotFoundError \/
  exists doc, open_document d i true = Value doc /\
              get_value doc (valno p) = Throw DocNotFoundError.

(** Document [i] has vanished as far as [next] can tell: as above, or its
    value is empty and in range and the open with [lazy = false] throws
    [DocNotFoundError]. *)
Definition vanished (d : Database) (p : ValueRangePostList) (i : docid) : Prop :=
  vanished_lazily d p i \/
  exists doc, open_document d i true = Value doc /\
              get_value doc (valno p) = Value EmptyString /\
              in_range p EmptyString = true /\
              open_document d i false = Throw DocNotFoundError.

(** [next] passes over document [i]: its [try] block falls through, or
    throws [DocNotFoundError]. *)
Definition passed_over (d : Database) (p : ValueRangePostList) (i : docid) : Prop :=
  next_try d (set_current p i) = Value false \/
  next_try d (set_current p i) = Throw DocNotFoundError.


(** What the loop of [next] can come to when started on [p] with backend
    [d]: it stops on the first id after [current p] whose [try] block
    reaches [return NULL]; or it passes over every id up to [lastdocid p]
    and clears [db]; or the first id it does not pass over throws an
    exception that is not caught. *)
Inductive scan_result (d : Database) (p : ValueRangePostList)
  : Outcome ValueRangePostList unit -> Prop :=
| scan_found (c : docid) :
    current p < c <= lastdocid p ->
    (forall i, current p < i < c -> passed_over d p i) ->
    next_try d (set_current p c) = Value true ->
    scan_result d p (Returned tt (set_current p c))
| scan_end :
    (forall i, current p < i <= lastdocid p -> passed_over d p i) ->
    scan_result d p
      (Returned tt (set_db_null (set_current p (Z.max (current p) (lastdocid p)))))
| scan_error (c : docid) (e : Error) :
    current p < c <= lastdocid p ->
    (forall i, current p < i < c -> passed_over d p i) ->
    next_try d (set_current p c) = Throw e ->
    e <> DocNotFoundError ->
    scan_result d p (Raised e (set_current p c)).

(** [keeps p p']: [p'] has the configuration of [p] - slot, bounds and
    cached figures - its [db] is that of [p] or null, and its position is
    that of [p] or some docid. *)
Definition keeps (p p' : ValueRangePostList) : Prop :=
  valno p' = valno p /\ begin_ p' = begin_ p /\ end_ p' = end_ p /\
  lastdocid p' = lastdocid p /\ db_size p' = db_size p /\
  (db p' = db p \/ db p' = None) /\
  (current p' = current p \/ is_docid (current p')).

(** The position sequence a returned [PositionList *] stands for: a null
    pointer is the iterator at its end, that is, no position at all. *)
Definition positions_of (r : option PositionList) : list termpos :=
  match r with
  | None => []
  | Some l => l
  end.

(** [five_cursor] once it has passed docid 5. *)
Definition five_cursor_ended : ValueRangePostList :=
  set_db_null (set_current five_cursor 5).

(** [ValueRangePostList::get_description].  [om_tostring] (utils.h) turns
    the slot number into text; it is a parameter here. *)
Definition get_description (om_tostring : valueno -> string)
           (p : ValueRangePostList) : string :=
  let desc := "ValueRangePostList("%string in
  let desc := (desc ++ om_tostring (valno p))%string in
  let desc := (desc ++ ", ")%string in
  let desc := (desc ++ begin_ p)%string in
  let desc := (desc ++ ", ")%string in
  let desc := (desc ++ end_ p)%string in
  let desc := (desc ++ ")")%string in
  desc.

(** An advancing call whose docid argument is a value of the type
    [Xapian::docid]. *)
Definition Advance_wf (a : Advance) : Prop :=
  match a with
  | DoNext _ => True
  | DoSkipTo did _ => is_docid did
  | DoCheck did _ => is_docid did
  end.

(** A sequence of advancing calls, one after the other; [None] when the
    model of one of them runs out of fuel. *)
Fixpoint advance_all (lvl : AssertLevel) (l : list Advance) (p : ValueRangePostList)
  : option ValueRangePostList :=
  match l with
  | [] => Some p
  | a :: l' =>
      match advance lvl a p with
      | Some p1 => advance_all lvl l' p1
      | None => None
      end
  end.

(** The [n] ids that follow [lo], in order. *)
Fixpoint ids_after (lo : docid) (n : nat) : list docid :=
  match n with
  | O => []
  | S n' => (lo + 1) :: ids_after (lo + 1) n'
  end.

(** [next] stops on document [i]: its [try] block reaches [return NULL]. *)
Definition accepted (d : Database) (p : ValueRangePostList) (i : docid) : bool :=
  match next_try d (set_current p i) with
  | Value true => true
  | _ => false
  end.

(** Between [current p] and [lastdocid p] the backend [d] throws nothing
    that [next] does not catch. *)
Definition quiet_backend (d : Database) (p : ValueRangePostList) : Prop :=
  forall i e, current p < i <= lastdocid p ->
              next_try d (set_current p i) = Throw e -> e = DocNotFoundError.

(** A cursor that still has its backend is not positioned behind the last
    docid. *)
Definition in_bounds (p : ValueRangePostList) : Prop :=
  at_end p = false -> current p <= lastdocid p.

(* ------------------------------------------------------------------ *)
(** * Properties                                                         *)
(* ------------------------------------------------------------------ *)

(** ** Arithmetic on docids *)

Lemma docid_modulus_pos : 0 < docid_modulus.
Proof. unfold docid_modulus. lia. Qed.

Lemma docid_incr_small (c : docid) :
  0 <= c -> c + 1 < docid_modulus -> docid_incr c = c + 1.
Proof. intros H0 H1. unfold docid_incr. apply Z.mod_small. lia. Qed.

Lemma docid_pred_small (c : docid) :
  0 < c < docid_modulus -> docid_pred c = c - 1.
Proof. intros H. unfold docid_pred. apply Z.mod_small. lia. Qed.

(** ** Record updates *)

Lemma set_current_same (p : ValueRangePostList) : set_current p (current p) = p.
Proof. destruct p; reflexivity. Qed.

Lemma at_end_set_current (p : ValueRangePostList) (c : docid) :
  at_end (set_current p c) = at_end p.
Proof. reflexivity. Qed.

Lemma at_end_set_db_null (p : ValueRangePostList) : at_end (set_db_null p) = true.
Proof. reflexivity. Qed.

Lemma at_end_false_db (p : ValueRangePostList) :
  at_end p = false -> exists d, db p = Some d.
Proof.
  unfold at_end, db_not_null. destruct (db p) as [d|]; intros H.
  - now exists d.
  - discriminate.
Qed.

Lemma at_end_true_db (p : ValueRangePostList) : at_end p = true -> db p = None.
Proof.
  unfold at_end, db_not_null. destruct (db p); intros H; [discriminate | reflexivity].
Qed.

(** ** The loop of [next] *)

Lemma scan_result_step (d : Database) (p : ValueRangePostList)
      (o : Outcome ValueRangePostList unit) :
  current p < lastdocid p ->
  passed_over d p (current p + 1) ->
  scan_result d (set_current p (current p + 1)) o ->
  scan_result d p o.
Proof.
  intros Hlt Hpass Hscan.
  assert (Hbefore : forall c i,
             (forall j, current p + 1 < j < c -> passed_over d p j) ->
             current p < i < c -> passed_over d p i).
  { intros c i Hc Hi. destruct (Z.eq_dec i (current p + 1)) as [->|Hne].
    - exact Hpass.
    - apply Hc. lia. }
  inversion Hscan as [c Hc Hskip Htry | Hskip | c e Hc Hskip Htry He]; subst; cbn in *.
  - apply (scan_found d p c); [lia | eauto | exact Htry].
  - replace (Z.max (current p + 1) (lastdocid p))
      with (Z.max (current p) (lastdocid p)) by lia.
    apply (scan_end d p).
    intros i Hi. destruct (Z.eq_dec i (current p + 1)) as [->|Hne].
    + exact Hpass.
    + apply Hskip. lia.
  - apply (scan_error d p c e); [lia | eauto | exact Htry | exact He].
Qed.

(** With the fuel that [next] gives it, the loop always comes to one of the
    three ends of [scan_result]: it neither runs out of fuel nor goes
    through a null pointer. *)
Lemma next_loop_scan (fuel : nat) :
  forall (p : ValueRangePostList) (d : Database),
    db p = Some d ->
    0 <= current p ->
    lastdocid p < docid_modulus ->
    (Z.to_nat (lastdocid p - current p) < fuel)%nat ->
    scan_result d p (next_loop fuel p).
Proof.
  induction fuel as [|fuel IH]; intros p d Hdb Hcur Hlast Hfuel; [lia|].
  cbn [next_loop].
  destruct (current p <? lastdocid p) eqn:Hcond.
  - apply Z.ltb_lt in Hcond.
    rewrite (docid_incr_small (current p)) by lia.
    cbn [current set_current db].
    destruct (current p + 1 =? 0) eqn:Hz; [apply Z.eqb_eq in Hz; lia|].
    rewrite Hdb.
    assert (Hrec : scan_result d (set_current p (current p + 1))
                     (next_loop fuel (set_current p (current p + 1)))).
    { apply IH; cbn; try assumption; lia. }
    destruct (next_try d (set_current p (current p + 1))) as [[|]|e] eqn:Htry.
    + apply (scan_found d p (current p + 1)); [lia | intros i Hi; lia | exact Htry].
    + apply scan_result_step; [lia | left; exact Htry | exact Hrec].
    + destruct e.
      * apply (scan_error d p (current p + 1) AssertionError);
          [lia | intros i Hi; lia | exact Htry | discriminate].
      * apply scan_result_step; [lia | right; exact Htry | exact Hrec].
      * apply (scan_error d p (current p + 1) DatabaseError);
          [lia | intros i Hi; lia | exact Htry | discriminate].
  - apply Z.ltb_ge in Hcond.
    replace p with (set_current p (Z.max (current p) (lastdocid p))) at 2.
    + apply (scan_end d p). intros i Hi. lia.
    + replace (Z.max (current p) (lastdocid p)) with (current p) by lia.
      apply set_current_same.
Qed.

(** ** Assertions that hold *)

Lemma Assert_holds {St} (lvl : AssertLevel) (c : St -> bool) (s : St) :
  c s = true -> Assert lvl c s = Returned tt s.
Proof. intros H. unfold Assert. rewrite H, andb_false_r. reflexivity. Qed.

Lemma Assert_off {St} (lvl : AssertLevel) (c : St -> bool) (s : St) :
  assert_on lvl = false -> Assert lvl c s = Returned tt s.
Proof. intros H. unfold Assert. rewrite H. reflexivity. Qed.

Lemma Assert_fails {St} (lvl : AssertLevel) (c : St -> bool) (s : St) :
  assert_on lvl = true -> c s = false -> Assert lvl c s = Raised AssertionError s.
Proof. intros H1 H2. unfold Assert. rewrite H1, H2. reflexivity. Qed.

Lemma db_not_null_at_end (p : ValueRangePostList) :
  at_end p = false -> db_not_null p = true.
Proof. unfold at_end. destruct (db_not_null p); [reflexivity | discriminate]. Qed.

Lemma AssertParanoid_lastdocid_holds (lvl : AssertLevel) (p : ValueRangePostList) :
  valid_cursor p -> at_end p = false ->
  AssertParanoid_lastdocid lvl p = Returned tt p.
Proof.
  intros (_ & _ & _ & Hcache) Hend.
  destruct (at_end_false_db p Hend) as [d Hdb].
  destruct (Hcache d Hdb) as [Hlast _].
  unfold AssertParanoid_lastdocid. rewrite Hdb, Hlast, Z.eqb_refl.
  destruct (paranoid_on lvl); reflexivity.
Qed.

Lemma AssertParanoid_db_size_holds (lvl : AssertLevel) (p : ValueRangePostList) :
  valid_cursor p -> AssertParanoid_db_size lvl p = Returned tt p.
Proof.
  intros (_ & _ & _ & Hcache).
  unfold AssertParanoid_db_size.
  destruct (paranoid_on lvl); [|reflexivity].
  destruct (db p) as [d|] eqn:Hdb; [|reflexivity].
  destruct (Hcache d eq_refl) as [_ Hsize].
  rewrite Hsize, Z.eqb_refl. reflexivity.
Qed.

(** [next] on a cursor that is valid and not at its end is its loop. *)
Lemma next_unfold (lvl : AssertLevel) (w : weight) (p : ValueRangePostList) :
  valid_cursor p -> at_end p = false ->
  next lvl w p = next_loop (next_fuel p) p.
Proof.
  intros Hv Hend.
  unfold next, bind.
  rewrite Assert_holds by (apply db_not_null_at_end; exact Hend).
  rewrite AssertParanoid_lastdocid_holds by assumption.
  reflexivity.
Qed.

Lemma next_scan (lvl : AssertLevel) (w : weight) (p : ValueRangePostList) (d : Database) :
  valid_cursor p -> db p = Some d ->
  scan_result d p (next lvl w p).
Proof.
  intros Hv Hdb.
  rewrite next_unfold; [| exact Hv | unfold at_end, db_not_null; now rewrite Hdb].
  destruct Hv as (Hc & Hl & _).
  apply next_loop_scan; [exact Hdb | apply Hc | apply Hl | unfold next_fuel; lia].
Qed.

(** On a valid cursor with a backend, [next] returns or throws: the model
    neither runs out of fuel nor goes through a null pointer. *)
Lemma next_total (lvl : AssertLevel) (w : weight) (p : ValueRangePostList) (d : Database) :
  valid_cursor p -> db p = Some d ->
  (exists p', next lvl w p = Returned tt p') \/
  (exists e p', next lvl w p = Raised e p').
Proof.
  intros Hv Hdb.
  destruct (next_scan lvl w p d Hv Hdb) as [c _ _ _ | _ | c e _ _ _ _].
  - left. eexists. reflexivity.
  - left. eexists. reflexivity.
  - right. eexists. eexists. reflexivity.
Qed.

(** ** What no advancing call changes *)

Lemma keeps_refl (p : ValueRangePostList) : keeps p p.
Proof. unfold keeps. tauto. Qed.

Lemma keeps_trans (p q r : ValueRangePostList) : keeps p q -> keeps q r -> keeps p r.
Proof.
  unfold keeps.
  intros (Hv & Hb & He & Hl & Hs & Hd & Hc) (Hv' & Hb' & He' & Hl' & Hs' & Hd' & Hc').
  repeat split; try congruence.
  - destruct Hd' as [Hd'|Hd']; [destruct Hd as [Hd|Hd]|]; [left|right|right]; congruence.
  - destruct Hc' as [Hc'|Hc']; [destruct Hc as [Hc|Hc]|]; [left|right|right]; congruence.
Qed.

Lemma keeps_set_current (p : ValueRangePostList) (c : docid) :
  is_docid c -> keeps p (set_current p c).
Proof. intros Hc. unfold keeps; cbn. tauto. Qed.

Lemma keeps_set_db_null (p : ValueRangePostList) : keeps p (set_db_null p).
Proof. unfold keeps; cbn. tauto. Qed.

Lemma is_docid_incr (c : docid) : is_docid (docid_incr c).
Proof. unfold is_docid, docid_incr. apply Z.mod_pos_bound, docid_modulus_pos. Qed.

Lemma is_docid_pred (c : docid) : is_docid (docid_pred c).
Proof. unfold is_docid, docid_pred. apply Z.mod_pos_bound, docid_modulus_pos. Qed.

Lemma keeps_valid (p p' : ValueRangePostList) :
  valid_cursor p -> keeps p p' -> valid_cursor p'.
Proof.
  intros (Hc & Hl & Hs & Hcache) (_ & _ & _ & Hl' & Hs' & Hd' & Hc').
  unfold valid_cursor. rewrite Hl', Hs'.
  split; [destruct Hc' as [->|Hc']; assumption|].
  split; [exact Hl|]. split; [exact Hs|].
  intros d Hdb.
  destruct Hd' as [Hd'|Hd']; rewrite Hd' in Hdb; [now apply Hcache | discriminate].
Qed.

Lemma next_loop_keeps (fuel : nat) :
  forall p p', final_state (next_loop fuel p) = Some p' -> keeps p p'.
Proof.
  induction fuel as [|fuel IH]; intros p p'; cbn [next_loop]; [discriminate|].
  assert (Hstep : keeps p (set_current p (docid_incr (current p))))
    by apply keeps_set_current, is_docid_incr.
  destruct (current p <? lastdocid p).
  - cbn [current set_current db].
    destruct (docid_incr (current p) =? 0).
    + cbn. intros [= <-].
      eapply keeps_trans; [exact Hstep | apply keeps_set_db_null].
    + destruct (db p) as [d|].
      * destruct (next_try d (set_current p (docid_incr (current p)))) as [[|]|[| |]];
          try (cbn; intros [= <-]; exact Hstep);
          intros H; eapply keeps_trans; [exact Hstep | apply IH, H | exact Hstep | apply IH, H].
      * cbn. intros [= <-]. exact Hstep.
  - cbn. intros [= <-]. apply keeps_set_db_null.
Qed.

Lemma next_keeps (lvl : AssertLevel) (w : weight) (p p' : ValueRangePostList) :
  final_state (next lvl w p) = Some p' -> keeps p p'.
Proof.
  unfold next, bind, Assert, AssertParanoid_lastdocid.
  destruct (assert_on lvl && negb (db_not_null p)).
  - cbn. intros [= <-]. apply keeps_refl.
  - destruct (paranoid_on lvl).
    + destruct (db p) as [d|].
      * destruct (lastdocid p =? get_lastdocid d).
        -- apply next_loop_keeps.
        -- cbn. intros [= <-]. apply keeps_refl.
      * cbn. intros [= <-]. apply keeps_refl.
    + apply next_loop_keeps.
Qed.

Lemma skip_to_keeps (lvl : AssertLevel) (did : docid) (w : weight)
      (p p' : ValueRangePostList) :
  final_state (skip_to lvl did w p) = Some p' -> keeps p p'.
Proof.
  unfold skip_to, bind, Assert.
  destruct (assert_on lvl && negb (db_not_null p)).
  - cbn. intros [= <-]. apply keeps_refl.
  - destruct (did <=? current p).
    + cbn. intros [= <-]. apply keeps_refl.
    + intros H. eapply keeps_trans.
      * apply (keeps_set_current p (docid_pred did)), is_docid_pred.
      * eapply next_keeps, H.
Qed.

Lemma check_keeps (lvl : AssertLevel) (did : docid) (w : weight)
      (p p' : ValueRangePostList) :
  valid_cursor p ->
  final_state (check lvl did w p) = Some p' -> keeps p p'.
Proof.
  intros (Hc & Hl & _).
  unfold check, bind, Assert, AssertParanoid_lastdocid.
  destruct (assert_on lvl && negb (db_not_null p)).
  { cbn. intros [= <-]. apply keeps_refl. }
  destruct (did <=? current p) eqn:Hle.
  { cbn. intros [= <-]. apply keeps_refl. }
  apply Z.leb_gt in Hle.
  assert (Htail : forall q,
    final_state
      (if lastdocid p <? did then Returned true (set_db_null p)
       else match db (set_current p did) with
            | None => NullDeref (set_current p did)
            | Some d =>
                match check_try d (set_current p did) with
                | Value true => Returned true (set_current p did)
                | Value false => Returned false (set_current p did)
                | Throw DocNotFoundError => Returned false (set_current p did)
                | Throw e => Raised e (set_current p did)
                end
            end) = Some q -> keeps p q).
  { intros q. destruct (lastdocid p <? did) eqn:Hgt.
    - cbn. intros [= <-]. apply keeps_set_db_null.
    - apply Z.ltb_ge in Hgt.
      assert (Hk : keeps p (set_current p did))
        by (apply keeps_set_current; unfold is_docid in *; lia).
      destruct (db (set_current p did)) as [d|].
      + destruct (check_try d (set_current p did)) as [[|]|[| |]];
          cbn; intros [= <-]; exact Hk.
      + cbn. intros [= <-]. exact Hk. }
  destruct (paranoid_on lvl).
  - destruct (db p) as [d|] eqn:Hdb.
    + destruct (lastdocid p =? get_lastdocid d).
      * apply Htail.
      * cbn. intros [= <-]. apply keeps_refl.
    + cbn. intros [= <-]. apply keeps_refl.
  - apply Htail.
Qed.

Lemma advance_keeps (lvl : AssertLevel) (a : Advance) (p p' : ValueRangePostList) :
  valid_cursor p -> advance lvl a p = Some p' -> keeps p p'.
Proof.
  intros Hv. destruct a as [w|did w|did w]; cbn [advance].
  - apply next_keeps.
  - apply skip_to_keeps.
  - apply check_keeps, Hv.
Qed.

Lemma later_keeps (lvl : AssertLevel) (p p' : ValueRangePostList) :
  valid_cursor p -> later lvl p p' -> keeps p p' /\ valid_cursor p'.
Proof.
  intros Hv Hl. induction Hl as [|a p1 p2 Hl IH Hstep].
  - split; [apply keeps_refl | exact Hv].
  - destruct IH as [Hk1 Hv1].
    assert (Hk2 : keeps p1 p2) by (eapply advance_keeps; eassumption).
    split; [eapply keeps_trans; eassumption | eapply keeps_valid; eassumption].
Qed.

(** ** The scenario backends *)

Lemma new_cursor_valid (d : Database) (n : valueno) (b e : string) :
  is_docid (get_lastdocid d) -> is_doccount (get_doccount d) ->
  valid_cursor (new_ValueRangePostList d n b e).
Proof.
  intros Hl Hs. unfold valid_cursor; cbn.
  split; [unfold is_docid, docid_modulus; lia|].
  split; [exact Hl|]. split; [exact Hs|].
  intros d' [= <-]. split; reflexivity.
Qed.

Lemma five_cursor_valid : valid_cursor five_cursor.
Proof. apply new_cursor_valid; unfold is_docid, is_doccount, docid_modulus; cbn; lia. Qed.

Lemma holed_cursor_valid : valid_cursor holed_cursor.
Proof. apply new_cursor_valid; unfold is_docid, is_doccount, docid_modulus; cbn; lia. Qed.

(* ------------------------------------------------------------------ *)
(** ** Opening a posting list                                            *)
(* ------------------------------------------------------------------ *)

(** C1.  For a term [t] with [term_exists d t = false], [open_post_list]
    returns the [EmptyPostList]: a cursor that is at its end from the start
    and yields no document.  It does not fail, and what it yields is what
    [open_post_list] yields for any term [t'] without true occurrences:
    another term that does not exist gets the very same cursor, and a term
    for which the backend's own posting list is empty yields as little. *)
Theorem open_post_list_absent_term (d : Database) (t : string) :
  term_exists d t = false ->
  open_post_list d t = EmptyPostList /\
  LeafPostList_at_end (open_post_list d t) = true /\
  LeafPostList_yield (open_post_list d t) = [] /\
  (forall t', term_exists d t' = false ->
              open_post_list d t' = open_post_list d t) /\
  (forall t', LeafPostList_yield (do_open_post_list d t') = [] ->
              LeafPostList_yield (open_post_list d t') =
              LeafPostList_yield (open_post_list d t)).
Proof.
  intros Hno.
  assert (Hopen : open_post_list d t = EmptyPostList)
    by (unfold open_post_list; rewrite Hno; reflexivity).
  rewrite Hopen. repeat split.
  - intros t' Hno'. unfold open_post_list. rewrite Hno'. reflexivity.
  - intros t' Hempty. unfold open_post_list.
    destruct (term_exists d t'); cbn [negb].
    + exact Hempty.
    + reflexivity.
Qed.

Lemma open_post_list_absent_term_witness :
  term_exists five_db "xapian" = false /\
  open_post_list five_db "xapian" = EmptyPostList /\
  LeafPostList_at_end (open_post_list five_db "xapian") = true /\
  LeafPostList_yield (open_post_list five_db "xapian") = [] /\
  (forall t', term_exists five_db t' = false ->
              open_post_list five_db t' = open_post_list five_db "xapian") /\
  (forall t', LeafPostList_yield (do_open_post_list five_db t') = [] ->
              LeafPostList_yield (open_post_list five_db t') =
              LeafPostList_yield (open_post_list five_db "xapian")).
Proof.
  split; [reflexivity|].
  apply (open_post_list_absent_term five_db "xapian"). reflexivity.
Defined.

(** When the term exists, the backend builds the list. *)
Lemma open_post_list_present_term (d : Database) (t : string) :
  term_exists d t = true -> open_post_list d t = do_open_post_list d t.
Proof. intros H. unfold open_post_list. rewrite H. reflexivity. Qed.

(* ------------------------------------------------------------------ *)
(** ** Mutations on a backend that is not writable                       *)
(* ------------------------------------------------------------------ *)

(** In a build that checks [Assert], each of [flush], [add_document],
    [delete_document] and [replace_document], called on a backend that
    inherits the default bodies, is rejected with an [AssertionError] - the
    programming-error signal - and leaves the backend as it was; none of
    them returns. *)
Theorem inherited_mutations_rejected (lvl : AssertLevel) (St : Type) (s : St)
        (document : Document) (did : docid) :
  assert_on lvl = true ->
  flush (inherited_mutations lvl St) s = Raised AssertionError s /\
  add_document (inherited_mutations lvl St) document s = Raised AssertionError s /\
  delete_document (inherited_mutations lvl St) did s = Raised AssertionError s /\
  replace_document (inherited_mutations lvl St) did document s = Raised AssertionError s.
Proof.
  intros Hon. cbn.
  unfold Internal_flush, Internal_add_document, Internal_delete_document,
    Internal_replace_document, bind.
  rewrite (Assert_fails lvl (fun _ : St => false) s Hon eq_refl).
  repeat split.
Qed.

Lemma inherited_mutations_rejected_witness :
  assert_on Assertions = true /\
  flush (inherited_mutations Assertions Database) five_db
    = Raised AssertionError five_db /\
  add_document (inherited_mutations Assertions Database) (doc_with_value 3 "150") five_db
    = Raised AssertionError five_db /\
  delete_document (inherited_mutations Assertions Database) 2 five_db
    = Raised AssertionError five_db /\
  replace_document (inherited_mutations Assertions Database) 2 (doc_with_value 3 "150") five_db
    = Raised AssertionError five_db.
Proof.
  split; [reflexivity|].
  apply (inherited_mutations_rejected Assertions Database five_db
           (doc_with_value 3 "150") 2).
  reflexivity.
Defined.

(** Where [Assert] is compiled out nothing stands in for it: the default
    bodies return, and [add_document] hands back the reserved id 0. *)
Lemma inherited_mutations_unchecked (St : Type) (s : St)
      (document : Document) (did : docid) :
  flush (inherited_mutations NoAssertions St) s = Returned tt s /\
  add_document (inherited_mutations NoAssertions St) document s = Returned 0 s /\
  delete_document (inherited_mutations NoAssertions St) did s = Returned tt s /\
  replace_document (inherited_mutations NoAssertions St) did document s = Returned tt s.
Proof. repeat split. Qed.

(** C3, as the code has it.  The default body of each of [flush],
    [add_document], [delete_document] and [replace_document] is an
    [Assert(false)] and nothing else that acts.  On a backend that inherits
    them, a build that checks [Assert] rejects the call with an
    [AssertionError] - the programming-error signal - and leaves the
    backend as it was.  A build with [Assert] compiled out has nothing in
    its place: the call returns, the backend untouched, and [add_document]
    hands back the reserved docid 0. *)
Theorem inherited_mutations_by_build (lvl : AssertLevel) (St : Type) (s : St)
        (document : Document) (did : docid) :
  flush (inherited_mutations lvl St) s =
    (if assert_on lvl then Raised AssertionError s else Returned tt s) /\
  add_document (inherited_mutations lvl St) document s =
    (if assert_on lvl then Raised AssertionError s else Returned 0 s) /\
  delete_document (inherited_mutations lvl St) did s =
    (if assert_on lvl then Raised AssertionError s else Returned tt s) /\
  replace_document (inherited_mutations lvl St) did document s =
    (if assert_on lvl then Raised AssertionError s else Returned tt s).
Proof. destruct lvl; repeat split. Qed.

(** C3, as it is stated, fails in a build with [Assert] compiled out: on
    the read-only five-document backend each of the four inherited
    mutations returns, having done nothing - the silent no-op that the
    statement rules out. *)
Lemma inherited_mutations_counterexample :
  flush (inherited_mutations NoAssertions Database) five_db
    = Returned tt five_db /\
  add_document (inherited_mutations NoAssertions Database)
               (doc_with_value 3 "150") five_db
    = Returned 0 five_db /\
  delete_document (inherited_mutations NoAssertions Database) 2 five_db
    = Returned tt five_db /\
  replace_document (inherited_mutations NoAssertions Database) 2
                   (doc_with_value 3 "150") five_db
    = Returned tt five_db.
Proof. repeat split. Qed.

(* ------------------------------------------------------------------ *)
(** ** Cardinality bounds                                                *)
(* ------------------------------------------------------------------ *)

Lemma termfreq_values (lvl : AssertLevel) (p : ValueRangePostList) :
  valid_cursor p ->
  get_termfreq_min p = Returned 0 p /\
  get_termfreq_est lvl p = Returned (db_size p / 2) p /\
  get_termfreq_max lvl p = Returned (db_size p) p.
Proof.
  intros Hv. unfold get_termfreq_min, get_termfreq_est, get_termfreq_max, bind, ret.
  rewrite AssertParanoid_db_size_holds by exact Hv.
  repeat split.
Qed.

(** C8.  Take a cursor [p] at any point of its lifetime and the same cursor
    [p'] after any number of advancing calls.  At both points the three
    estimates return, with min <= est <= max, and none of the three is
    larger at [p'] than it was at [p]. *)
Theorem termfreq_bounds (lvl : AssertLevel) (p p' : ValueRangePostList) :
  valid_cursor p -> later lvl p p' ->
  exists mn es mx mn' es' mx',
    (get_termfreq_min p = Returned mn p /\
     get_termfreq_est lvl p = Returned es p /\
     get_termfreq_max lvl p = Returned mx p) /\
    (get_termfreq_min p' = Returned mn' p' /\
     get_termfreq_est lvl p' = Returned es' p' /\
     get_termfreq_max lvl p' = Returned mx' p') /\
    (mn <= es <= mx) /\ (mn' <= es' <= mx') /\
    mn' <= mn /\ es' <= es /\ mx' <= mx.
Proof.
  intros Hv Hlater.
  destruct (later_keeps lvl p p' Hv Hlater) as [Hk Hv'].
  destruct Hk as (_ & _ & _ & _ & Hsize & _).
  exists 0, (db_size p / 2), (db_size p), 0, (db_size p' / 2), (db_size p').
  split; [apply termfreq_values, Hv|].
  split; [apply termfreq_values, Hv'|].
  destruct Hv as (_ & _ & [Hs0 _] & _).
  rewrite Hsize.
  assert (0 <= db_size p / 2 <= db_size p).
  { split; [apply Z.div_pos; lia | apply Z.div_le_upper_bound; lia]. }
  lia.
Qed.

Lemma termfreq_bounds_witness :
  valid_cursor five_cursor /\
  later Assertions five_cursor (set_current five_cursor 2) /\
  exists mn es mx mn' es' mx',
    (get_termfreq_min five_cursor = Returned mn five_cursor /\
     get_termfreq_est Assertions five_cursor = Returned es five_cursor /\
     get_termfreq_max Assertions five_cursor = Returned mx five_cursor) /\
    (get_termfreq_min (set_current five_cursor 2)
       = Returned mn' (set_current five_cursor 2) /\
     get_termfreq_est Assertions (set_current five_cursor 2)
       = Returned es' (set_current five_cursor 2) /\
     get_termfreq_max Assertions (set_current five_cursor 2)
       = Returned mx' (set_current five_cursor 2)) /\
    (mn <= es <= mx) /\ (mn' <= es' <= mx') /\
    mn' <= mn /\ es' <= es /\ mx' <= mx.
Proof.
  assert (Hlater : later Assertions five_cursor (set_current five_cursor 2)).
  { apply (later_step Assertions five_cursor (DoNext 0%Q) five_cursor).
    - apply later_now.
    - vm_compute. reflexivity. }
  split; [exact five_cursor_valid|].
  split; [exact Hlater|].
  exact (termfreq_bounds Assertions five_cursor (set_current five_cursor 2)
           five_cursor_valid Hlater).
Defined.

(* ------------------------------------------------------------------ *)
(** ** Positions and weights                                             *)
(* ------------------------------------------------------------------ *)

(** C9.  On a cursor that is positioned (its [db] is not null), both
    [read_position_list] and [open_position_list] return - they do not
    throw - and what they return is the null list, which stands for the
    empty sequence of positions.  The cursor is not changed. *)
Theorem position_list_is_empty (lvl : AssertLevel) (p : ValueRangePostList) :
  at_end p = false ->
  exists r r',
    read_position_list lvl p = Returned r p /\ positions_of r = [] /\
    open_position_list lvl p = Returned r' p /\ positions_of r' = [].
Proof.
  intros Hend. exists None, None.
  unfold read_position_list, open_position_list, bind, ret.
  rewrite Assert_holds by (apply db_not_null_at_end; exact Hend).
  repeat split.
Qed.

Lemma position_list_is_empty_witness :
  at_end (set_current five_cursor 2) = false /\
  exists r r',
    read_position_list Assertions (set_current five_cursor 2)
      = Returned r (set_current five_cursor 2) /\ positions_of r = [] /\
    open_position_list Assertions (set_current five_cursor 2)
      = Returned r' (set_current five_cursor 2) /\ positions_of r' = [].
Proof.
  split; [reflexivity|].
  apply (position_list_is_empty Assertions (set_current five_cursor 2)).
  reflexivity.
Defined.

(** C10, as the code has it.  [get_maxweight] returns 0 in every state.
    [get_weight] and [recalc_maxweight] return 0 and leave the cursor alone
    in every state but one: on a cursor at its end, in a build that checks
    [Assert], they fail with an [AssertionError].  The weight passed to
    [next] and [skip_to] has no effect on what these calls do. *)
Theorem weights_are_zero (lvl : AssertLevel) (p : ValueRangePostList)
        (did : docid) (w1 w2 : weight) :
  get_maxweight p = Returned 0%Q p /\
  get_weight lvl p =
    (if assert_on lvl && at_end p then Raised AssertionError p
     else Returned 0%Q p) /\
  recalc_maxweight lvl p =
    (if assert_on lvl && at_end p then Raised AssertionError p
     else Returned 0%Q p) /\
  next lvl w1 p = next lvl w2 p /\
  skip_to lvl did w1 p = skip_to lvl did w2 p.
Proof.
  unfold get_maxweight, get_weight, recalc_maxweight, bind, ret, Assert, at_end.
  destruct (assert_on lvl && negb (db_not_null p)); repeat split.
Qed.

(** C10, as it is stated, fails on the cursor that has run to its end: in
    a build that checks [Assert], [get_weight] and [recalc_maxweight] do
    not return 0 there. *)
Lemma weights_are_zero_counterexample :
  at_end five_cursor_ended = true /\
  get_weight Assertions five_cursor_ended
    = Raised AssertionError five_cursor_ended /\
  recalc_maxweight Assertions five_cursor_ended
    = Raised AssertionError five_cursor_ended.
Proof. repeat split. Qed.

(* ------------------------------------------------------------------ *)
(** ** The five-document scenario                                        *)
(* ------------------------------------------------------------------ *)

(** C7.  Over the five documents with slot-3 values "050", "150", "200",
    "250" and none, the cursor for slot 3 and range ["100", "200"] driven
    by [next] alone stops at docid 2, then at docid 3, and the third call
    leaves it at its end, having passed docid 5. *)
Theorem five_documents_scenario (lvl : AssertLevel) :
  run_to_end lvl 3 five_cursor = Some ([2; 3], five_cursor_ended) /\
  at_end five_cursor_ended = true /\
  current five_cursor_ended = 5 /\
  next lvl 0%Q five_cursor = Returned tt (set_current five_cursor 2) /\
  next lvl 0%Q (set_current five_cursor 2) = Returned tt (set_current five_cursor 3) /\
  next lvl 0%Q (set_current five_cursor 3) = Returned tt five_cursor_ended.
Proof. destruct lvl; vm_compute; repeat split. Qed.

(* ------------------------------------------------------------------ *)
(** ** What the [try] blocks decide                                      *)
(* ------------------------------------------------------------------ *)

Lemma next_try_accepts (d : Database) (p : ValueRangePostList) :
  next_try d p = Value true -> value_in_range d p (current p).
Proof.
  unfold next_try, value_in_range, result_bind.
  destruct (open_document d (current p) true) as [doc|e] eqn:Hopen; [|discriminate].
  destruct (get_value doc (valno p)) as [v|e] eqn:Hget; [|discriminate].
  destruct (in_range p v) eqn:Hin; [|discriminate].
  intros _. exists doc, v. repeat split; assumption.
Qed.

Lemma check_try_accepts (d : Database) (p : ValueRangePostList) :
  check_try d p = Value true -> value_in_range d p (current p).
Proof.
  unfold check_try, value_in_range, result_bind.
  destruct (open_document d (current p) true) as [doc|e] eqn:Hopen; [|discriminate].
  destruct (get_value doc (valno p)) as [v|e] eqn:Hget; [|discriminate].
  destruct (in_range p v) eqn:Hin; [|discriminate].
  intros _. exists doc, v. repeat split; assumption.
Qed.

Lemma vanished_lazily_check_try (d : Database) (p : ValueRangePostList) (i : docid) :
  vanished_lazily d p i -> check_try d (set_current p i) = Throw DocNotFoundError.
Proof.
  unfold check_try, result_bind; cbn [current valno set_current].
  intros [Hopen | (doc & Hopen & Hget)].
  - rewrite Hopen. reflexivity.
  - rewrite Hopen, Hget. reflexivity.
Qed.

Lemma vanished_next_try (d : Database) (p : ValueRangePostList) (i : docid) :
  vanished d p i -> next_try d (set_current p i) = Throw DocNotFoundError.
Proof.
  unfold next_try, result_bind; cbn [current valno set_current].
  intros [[Hopen | (doc & Hopen & Hget)] | (doc & Hopen & Hget & Hin & Hstrict)].
  - rewrite Hopen. reflexivity.
  - rewrite Hopen, Hget. reflexivity.
  - rewrite Hopen, Hget.
    change (in_range (set_current p i) EmptyString) with (in_range p EmptyString).
    rewrite Hin. cbn [string_empty]. rewrite Hstrict. reflexivity.
Qed.

(* ------------------------------------------------------------------ *)
(** ** [skip_to]                                                         *)
(* ------------------------------------------------------------------ *)

Lemma skip_to_unfold (lvl : AssertLevel) (did : docid) (w : weight)
      (p : ValueRangePostList) :
  valid_cursor p -> at_end p = false -> is_docid did -> current p < did ->
  skip_to lvl did w p = next_loop (next_fuel (set_current p (did - 1)))
                                  (set_current p (did - 1)).
Proof.
  intros Hv Hend Hdid Hlt.
  assert (Hpred : docid_pred did = did - 1).
  { apply docid_pred_small. destruct Hv as ([Hc _] & _). unfold is_docid in Hdid. lia. }
  unfold skip_to, bind.
  rewrite Assert_holds by (apply db_not_null_at_end; exact Hend).
  cbn beta. destruct (did <=? current p) eqn:Hle; [apply Z.leb_le in Hle; lia|].
  rewrite Hpred. apply next_unfold.
  - apply (keeps_valid p); [exact Hv|].
    rewrite <- Hpred. apply keeps_set_current, is_docid_pred.
  - exact Hend.
Qed.

Lemma skip_to_noop (lvl : AssertLevel) (did : docid) (w : weight)
      (p : ValueRangePostList) :
  at_end p = false -> did <= current p ->
  skip_to lvl did w p = Returned tt p.
Proof.
  intros Hend Hle. unfold skip_to, bind.
  rewrite Assert_holds by (apply db_not_null_at_end; exact Hend).
  cbn beta. apply Z.leb_le in Hle. rewrite Hle. reflexivity.
Qed.

(** A [skip_to] that moves is the scan of [next] started just before
    [did]. *)
Lemma skip_to_scan (lvl : AssertLevel) (did : docid) (w : weight)
      (p : ValueRangePostList) (d : Database) :
  valid_cursor p -> db p = Some d -> is_docid did -> current p < did ->
  scan_result d (set_current p (did - 1)) (skip_to lvl did w p).
Proof.
  intros Hv Hdb Hdid Hlt.
  assert (Hend : at_end p = false) by (unfold at_end, db_not_null; now rewrite Hdb).
  rewrite skip_to_unfold by assumption.
  destruct Hv as ([Hc _] & [_ Hl] & _).
  apply next_loop_scan; unfold next_fuel; cbn [current lastdocid db set_current];
    [exact Hdb | lia | exact Hl | lia].
Qed.

(** C4.  On a cursor that is not at its end, [skip_to did w] does nothing
    when [did <= current].  Otherwise the call comes to one of three ends:
    it returns with the cursor at its end; or it returns with
    [current >= did] on a document whose value is in the range, every id
    from [did] up to there having been passed over; or an exception of the
    backend other than [DocNotFoundError] leaves the call. *)
Theorem skip_to_lands_on_match (lvl : AssertLevel) (p : ValueRangePostList)
        (d : Database) (did : docid) (w : weight) :
  valid_cursor p -> db p = Some d -> is_docid did ->
  (did <= current p -> skip_to lvl did w p = Returned tt p) /\
  (current p < did ->
   match skip_to lvl did w p with
   | Returned _ p' =>
       at_end p' = true \/
       (at_end p' = false /\
        did <= current p' /\
        value_in_range d p (current p') /\
        forall i, did <= i < current p' -> passed_over d p i)
   | Raised e p' =>
       e <> DocNotFoundError /\ did <= current p' /\ next_try d p' = Throw e
   | NullDeref _ | OutOfFuel => False
   end).
Proof.
  intros Hv Hdb Hdid.
  assert (Hend : at_end p = false) by (unfold at_end, db_not_null; now rewrite Hdb).
  split; [apply skip_to_noop, Hend|].
  intros Hlt.
  pose proof (skip_to_scan lvl did w p d Hv Hdb Hdid Hlt) as Hscan.
  destruct Hscan as [c Hc Hskip Htry | Hskip | c e Hc Hskip Htry He]; cbn in *.
  - right. split; [unfold at_end, db_not_null; cbn; now rewrite Hdb|].
    split; [lia|]. split.
    + apply (next_try_accepts d (set_current p c)), Htry.
    + intros i Hi. apply Hskip. lia.
  - left. reflexivity.
  - split; [exact He|]. split; [lia | exact Htry].
Qed.

Lemma skip_to_lands_on_match_witness :
  valid_cursor five_cursor /\ db five_cursor = Some five_db /\ is_docid 3 /\
  (3 <= current five_cursor -> skip_to Assertions 3 0%Q five_cursor = Returned tt five_cursor) /\
  (current five_cursor < 3 ->
   match skip_to Assertions 3 0%Q five_cursor with
   | Returned _ p' =>
       at_end p' = true \/
       (at_end p' = false /\
        3 <= current p' /\
        value_in_range five_db five_cursor (current p') /\
        forall i, 3 <= i < current p' -> passed_over five_db five_cursor i)
   | Raised e p' =>
       e <> DocNotFoundError /\ 3 <= current p' /\ next_try five_db p' = Throw e
   | NullDeref _ | OutOfFuel => False
   end).
Proof.
  assert (Hd : is_docid 3) by (unfold is_docid, docid_modulus; lia).
  split; [exact five_cursor_valid|].
  split; [reflexivity|].
  split; [exact Hd|].
  exact (skip_to_lands_on_match Assertions five_cursor five_db 3 0%Q
           five_cursor_valid eq_refl Hd).
Defined.

(* ------------------------------------------------------------------ *)
(** ** Documents that vanish                                             *)
(* ------------------------------------------------------------------ *)

(** One turn of the loop over a document that is passed over because it
    is not found: the scan goes on from the id behind it. *)
Lemma next_over_vanished (lvl : AssertLevel) (w : weight)
      (p : ValueRangePostList) (d : Database) :
  valid_cursor p -> db p = Some d ->
  current p < lastdocid p ->
  vanished d p (current p + 1) ->
  next lvl w p = next lvl w (set_current p (current p + 1)).
Proof.
  intros Hv Hdb Hlt Hgone.
  assert (Hend : at_end p = false) by (unfold at_end, db_not_null; now rewrite Hdb).
  pose proof Hv as ([Hc _] & [_ Hl] & _).
  assert (Hv1 : valid_cursor (set_current p (current p + 1))).
  { apply (keeps_valid p); [exact Hv|].
    apply keeps_set_current. unfold is_docid. lia. }
  rewrite (next_unfold lvl w p Hv Hend).
  rewrite (next_unfold lvl w (set_current p (current p + 1)) Hv1 Hend).
  unfold next_fuel at 1. cbn [next_loop].
  destruct (current p <? lastdocid p) eqn:Hcond; [|apply Z.ltb_ge in Hcond; lia].
  rewrite (docid_incr_small (current p)) by lia.
  cbn [current set_current db].
  destruct (current p + 1 =? 0) eqn:Hz; [apply Z.eqb_eq in Hz; lia|].
  rewrite Hdb, (vanished_next_try d p (current p + 1) Hgone).
  f_equal. unfold next_fuel. cbn [current lastdocid set_current]. lia.
Qed.

Lemma next_never_not_found (lvl : AssertLevel) (w : weight)
      (p p' : ValueRangePostList) (d : Database) :
  valid_cursor p -> db p = Some d ->
  next lvl w p <> Raised DocNotFoundError p'.
Proof.
  intros Hv Hdb Heq.
  pose proof (next_scan lvl w p d Hv Hdb) as Hscan.
  rewrite Heq in Hscan.
  inversion Hscan as [| | c e Hc Hskip Htry He]; subst. now apply He.
Qed.

(** C6.  A document that is not found when [next] or [check] looks at it
    is passed over, and nothing else happens:
      - no call of [next], [skip_to] or [check] lets a [DocNotFoundError]
        out;
      - when the document behind the current one has vanished, [next] does
        what it does from behind that document;
      - [next] leaves the cursor at its end only when every id up to
        [lastdocid] was passed over;
      - [check] on a vanished document returns, with [valid] false and the
        cursor not at its end. *)
Theorem vanished_document_is_skipped (lvl : AssertLevel) (p : ValueRangePostList)
        (d : Database) (w : weight) :
  valid_cursor p -> db p = Some d ->
  (forall p', next lvl w p <> Raised DocNotFoundError p') /\
  (forall did p', is_docid did -> skip_to lvl did w p <> Raised DocNotFoundError p') /\
  (forall did p', check lvl did w p <> Raised DocNotFoundError p') /\
  (current p < lastdocid p -> vanished d p (current p + 1) ->
   next lvl w p = next lvl w (set_current p (current p + 1))) /\
  (forall p', next lvl w p = Returned tt p' -> at_end p' = true ->
              forall i, current p < i <= lastdocid p -> passed_over d p i) /\
  (forall did, current p < did <= lastdocid p -> vanished_lazily d p did ->
               check lvl did w p = Returned false (set_current p did) /\
               at_end (set_current p did) = false).
Proof.
  intros Hv Hdb.
  assert (Hend : at_end p = false) by (unfold at_end, db_not_null; now rewrite Hdb).
  assert (Hnn : db_not_null p = true) by (apply db_not_null_at_end; exact Hend).
  split; [intros p'; eapply next_never_not_found; eassumption|].
  split.
  { intros did p' Hdid Heq.
    destruct (Z.le_gt_cases did (current p)) as [Hle|Hgt].
    - rewrite (skip_to_noop lvl did w p Hend Hle) in Heq. discriminate.
    - pose proof (skip_to_scan lvl did w p d Hv Hdb Hdid Hgt) as Hscan.
      rewrite Heq in Hscan.
      inversion Hscan as [| | c e Hc Hskip Htry He]; subst. now apply He. }
  split.
  { intros did p'. unfold check, bind.
    rewrite Assert_holds by exact Hnn. cbn beta.
    destruct (did <=? current p); [discriminate|].
    rewrite AssertParanoid_lastdocid_holds by assumption.
    destruct (lastdocid p <? did); [discriminate|].
    cbn [db set_current]. rewrite Hdb.
    destruct (check_try d (set_current p did)) as [[|]|[| |]]; discriminate. }
  split; [intros Hlt Hgone; eapply next_over_vanished; eassumption|].
  split.
  { intros p' Heq Hend' i Hi.
    pose proof (next_scan lvl w p d Hv Hdb) as Hscan.
    rewrite Heq in Hscan.
    inversion Hscan as [c Hc Hskip Htry Hp' | Hskip Hp' |]; subst.
    - unfold at_end, db_not_null in Hend'. cbn in Hend'. rewrite Hdb in Hend'. discriminate.
    - apply Hskip, Hi. }
  intros did Hdid Hgone. split; [|exact Hend].
  unfold check, bind.
  rewrite Assert_holds by exact Hnn. cbn beta.
  destruct (did <=? current p) eqn:Hle; [apply Z.leb_le in Hle; lia|].
  rewrite AssertParanoid_lastdocid_holds by assumption.
  destruct (lastdocid p <? did) eqn:Hgt; [apply Z.ltb_lt in Hgt; lia|].
  cbn [db set_current]. rewrite Hdb.
  rewrite (vanished_lazily_check_try d p did Hgone). reflexivity.
Qed.

Lemma vanished_document_is_skipped_witness :
  valid_cursor (set_current holed_cursor 1) /\
  db (set_current holed_cursor 1) = Some holed_db /\
  vanished holed_db (set_current holed_cursor 1) 2 /\
  next Assertions 0%Q (set_current holed_cursor 1)
    = next Assertions 0%Q (set_current holed_cursor 2) /\
  next Assertions 0%Q (set_current holed_cursor 1)
    = Returned tt (set_current holed_cursor 3).
Proof.
  assert (Hv : valid_cursor (set_current holed_cursor 1)).
  { apply (keeps_valid holed_cursor); [exact holed_cursor_valid|].
    apply keeps_set_current. unfold is_docid, docid_modulus. lia. }
  assert (Hgone : vanished holed_db (set_current holed_cursor 1) 2)
    by (left; left; reflexivity).
  split; [exact Hv|]. split; [reflexivity|]. split; [exact Hgone|].
  split; [|reflexivity].
  refine (proj1 (proj2 (proj2 (proj2
    (vanished_document_is_skipped Assertions (set_current holed_cursor 1)
       holed_db 0%Q Hv eq_refl)))) _ Hgone).
  cbn. lia.
Defined.

(** The scenario: ids 1 to 3 with document 2 deleted.  The cursor yields 1
    and 3 and ends behind 3, whether the backend throws on the lazy open
    or only on the strict one that [next] adds for an empty value. *)
Lemma deleted_document_scenario (lvl : AssertLevel) :
  open_document holed_db 2 true = Throw DocNotFoundError /\
  option_map fst (run_to_end lvl 3 holed_cursor) = Some [1; 3] /\
  open_document lazy_holed_db 2 false = Throw DocNotFoundError /\
  option_map fst (run_to_end lvl 3 lazy_holed_cursor) = Some [1; 3].
Proof. destruct lvl; vm_compute; repeat split. Qed.

(* ------------------------------------------------------------------ *)
(** ** The end of a cursor                                               *)
(* ------------------------------------------------------------------ *)

Lemma set_db_null_same (p : ValueRangePostList) :
  db p = None -> set_db_null p = p.
Proof. destruct p as [d ? ? ? ? ? ?]; cbn. intros ->. reflexivity. Qed.

Lemma keeps_db_null (p p' : ValueRangePostList) :
  db p = None -> keeps p p' -> db p' = None.
Proof.
  intros Hnull (_ & _ & _ & _ & _ & [Hd|Hd] & _); congruence.
Qed.

(** No advancing call gives a cursor its backend back. *)
Lemma advance_db_null (lvl : AssertLevel) (a : Advance) (p p' : ValueRangePostList) :
  db p = None -> advance lvl a p = Some p' -> db p' = None.
Proof.
  intros Hnull. destruct a as [w|did w|did w]; cbn [advance].
  - intros H. apply (keeps_db_null p); [exact Hnull | eapply next_keeps, H].
  - intros H. apply (keeps_db_null p); [exact Hnull | eapply skip_to_keeps, H].
  - unfold check, bind, Assert, AssertParanoid_lastdocid.
    destruct (assert_on lvl && negb (db_not_null p)).
    { cbn. intros [= <-]. exact Hnull. }
    destruct (did <=? current p).
    { cbn. intros [= <-]. exact Hnull. }
    rewrite Hnull.
    destruct (paranoid_on lvl).
    { cbn. intros [= <-]. exact Hnull. }
    destruct (lastdocid p <? did).
    + cbn. intros [= <-]. reflexivity.
    + cbn [db set_current]. rewrite Hnull. cbn. intros [= <-]. exact Hnull.
Qed.

Lemma assert_off_not_paranoid (lvl : AssertLevel) :
  assert_on lvl = false -> paranoid_on lvl = false.
Proof. destruct lvl; intros H; try discriminate; reflexivity. Qed.

(** C2, as the code has it.  Once [at_end] holds it holds for good: every
    [next], [skip_to] and [check], however it ends, leaves the cursor at
    its end.  ([at_end] itself is a function of the cursor and changes
    nothing, so asking again gives the same answer.)  Advancing such a
    cursor breaks the [Assert(db)] that opens [next], [skip_to] and
    [check]: a build that checks assertions rejects the call with an
    [AssertionError] and leaves the cursor as it was.  In a build that
    does not, [next] changes nothing on a cursor whose [current] has
    reached [lastdocid], and neither does [skip_to did] when moreover
    [did <= current]. *)
Theorem terminated_is_absorbing (lvl : AssertLevel) (p : ValueRangePostList)
        (did : docid) (w : weight) :
  at_end p = true ->
  (forall a p', advance lvl a p = Some p' -> at_end p' = true) /\
  (assert_on lvl = true ->
   next lvl w p = Raised AssertionError p /\
   skip_to lvl did w p = Raised AssertionError p /\
   check lvl did w p = Raised AssertionError p) /\
  (assert_on lvl = false -> lastdocid p <= current p ->
   next lvl w p = Returned tt p /\
   (did <= current p -> skip_to lvl did w p = Returned tt p)).
Proof.
  intros Hend.
  pose proof (at_end_true_db p Hend) as Hnull.
  assert (Hnn : db_not_null p = false) by (unfold db_not_null; now rewrite Hnull).
  split; [|split].
  - intros a p' Hstep.
    pose proof (advance_db_null lvl a p p' Hnull Hstep) as Hnull'.
    unfold at_end, db_not_null. now rewrite Hnull'.
  - intros Hon. unfold next, skip_to, check, bind.
    rewrite (Assert_fails lvl db_not_null p Hon Hnn). repeat split.
  - intros Hoff Hreached.
    assert (Hnext : next lvl w p = Returned tt p).
    { unfold next, bind, AssertParanoid_lastdocid.
      rewrite (Assert_off lvl db_not_null p Hoff).
      rewrite (assert_off_not_paranoid lvl Hoff).
      unfold next_fuel. cbn [next_loop].
      destruct (current p <? lastdocid p) eqn:Hcond; [apply Z.ltb_lt in Hcond; lia|].
      now rewrite set_db_null_same. }
    split; [exact Hnext|].
    intros Hle. unfold skip_to, bind.
    rewrite (Assert_off lvl db_not_null p Hoff). cbn beta.
    apply Z.leb_le in Hle. rewrite Hle. reflexivity.
Qed.

Lemma terminated_is_absorbing_witness :
  at_end five_cursor_ended = true /\
  (forall a p', advance Assertions a five_cursor_ended = Some p' -> at_end p' = true) /\
  (assert_on Assertions = true ->
   next Assertions 0%Q five_cursor_ended = Raised AssertionError five_cursor_ended /\
   skip_to Assertions 4 0%Q five_cursor_ended = Raised AssertionError five_cursor_ended /\
   check Assertions 4 0%Q five_cursor_ended = Raised AssertionError five_cursor_ended) /\
  (assert_on Assertions = false -> lastdocid five_cursor_ended <= current five_cursor_ended ->
   next Assertions 0%Q five_cursor_ended = Returned tt five_cursor_ended /\
   (4 <= current five_cursor_ended ->
    skip_to Assertions 4 0%Q five_cursor_ended = Returned tt five_cursor_ended)).
Proof.
  split; [reflexivity|].
  apply (terminated_is_absorbing Assertions five_cursor_ended 4 0%Q).
  reflexivity.
Defined.

(** The same in the build without assertions, where the last part applies. *)
Lemma terminated_next_unchecked :
  assert_on NoAssertions = false /\
  lastdocid five_cursor_ended <= current five_cursor_ended /\
  next NoAssertions 0%Q five_cursor_ended = Returned tt five_cursor_ended.
Proof. repeat split. cbn. lia. Qed.

(** C2, as it is stated, fails: advancing a cursor at its end is not a
    call that returns having done nothing.
      - With assertions checked, [next] and [skip_to] on the cursor that
        ran to its end do not return: they throw.
      - Without them, [skip_to 9] on that cursor returns but has moved
        [current] from 5 to 8.
      - Without them, a fresh cursor that [check 9] has put at its end
        (9 is behind the last docid) still has [current = 0]; [next] on
        it steps to docid 1 and goes through the null [db]. *)
Lemma terminated_advance_counterexample :
  at_end five_cursor_ended = true /\
  next Assertions 0%Q five_cursor_ended = Raised AssertionError five_cursor_ended /\
  skip_to Assertions 9 0%Q five_cursor_ended = Raised AssertionError five_cursor_ended /\
  skip_to NoAssertions 9 0%Q five_cursor_ended
    = Returned tt (set_current five_cursor_ended 8) /\
  current (set_current five_cursor_ended 8) <> current five_cursor_ended /\
  check NoAssertions 9 0%Q five_cursor = Returned true (set_db_null five_cursor) /\
  at_end (set_db_null five_cursor) = true /\
  next NoAssertions 0%Q (set_db_null five_cursor)
    = NullDeref (set_current (set_db_null five_cursor) 1).
Proof. vm_compute. repeat split; discriminate. Qed.

(* ------------------------------------------------------------------ *)
(** ** [check] against [skip_to]                                         *)
(* ------------------------------------------------------------------ *)

Lemma check_unfold (lvl : AssertLevel) (did : docid) (w : weight)
      (p : ValueRangePostList) (d : Database) :
  valid_cursor p -> db p = Some d ->
  check lvl did w p =
    if did <=? current p then Returned true p
    else if lastdocid p <? did then Returned true (set_db_null p)
    else match check_try d (set_current p did) with
         | Value true => Returned true (set_current p did)
         | Value false => Returned false (set_current p did)
         | Throw DocNotFoundError => Returned false (set_current p did)
         | Throw e => Raised e (set_current p did)
         end.
Proof.
  intros Hv Hdb.
  assert (Hend : at_end p = false) by (unfold at_end, db_not_null; now rewrite Hdb).
  unfold check, bind.
  rewrite Assert_holds by (apply db_not_null_at_end; exact Hend). cbn beta.
  destruct (did <=? current p); [reflexivity|].
  rewrite AssertParanoid_lastdocid_holds by assumption.
  destruct (lastdocid p <? did); [reflexivity|].
  cbn [db set_current]. rewrite Hdb. reflexivity.
Qed.

(** Where [check] gives a definite answer and the [try] block of [next]
    decides about document [did] as that of [check] does, [skip_to] from
    the same cursor agrees: both leave the cursor at its end, or both leave
    it on the same document. *)
Lemma check_agrees_with_skip_to (lvl : AssertLevel) (p p1 : ValueRangePostList)
      (d : Database) (did : docid) (w : weight) :
  valid_cursor p -> db p = Some d -> is_docid did ->
  check lvl did w p = Returned true p1 ->
  (current p < did <= lastdocid p ->
   next_try d (set_current p did) = check_try d (set_current p did)) ->
  exists p2,
    skip_to lvl did w p = Returned tt p2 /\
    at_end p2 = at_end p1 /\
    (at_end p1 = false -> p2 = p1).
Proof.
  intros Hv Hdb Hdid Hcheck Hsame.
  assert (Hend : at_end p = false) by (unfold at_end, db_not_null; now rewrite Hdb).
  rewrite (check_unfold lvl did w p d Hv Hdb) in Hcheck.
  destruct (did <=? current p) eqn:Hle.
  { apply Z.leb_le in Hle. injection Hcheck as <-.
    exists p. rewrite (skip_to_noop lvl did w p Hend Hle). repeat split. }
  apply Z.leb_gt in Hle.
  pose proof (skip_to_scan lvl did w p d Hv Hdb Hdid Hle) as Hscan.
  destruct (lastdocid p <? did) eqn:Hgt.
  - apply Z.ltb_lt in Hgt. injection Hcheck as <-.
    inversion Hscan as [c Hc Hskip Htry Ho | Hskip Ho | c e Hc Hskip Htry He Ho];
      cbn [current lastdocid set_current] in *; try lia.
    eexists. split; [reflexivity|]. split; [reflexivity|]. discriminate.
  - apply Z.ltb_ge in Hgt.
    assert (Hacc : next_try d (set_current p did) = Value true).
    { rewrite Hsame by lia.
      destruct (check_try d (set_current p did)) as [[|]|[| |]];
        try discriminate; reflexivity. }
    assert (Hp1 : p1 = set_current p did).
    { destruct (check_try d (set_current p did)) as [[|]|[| |]];
        try discriminate; now injection Hcheck as <-. }
    assert (Hnot : ~ passed_over d p did).
    { intros [H|H]; rewrite Hacc in H; discriminate. }
    inversion Hscan as [c Hc Hskip Htry Ho | Hskip Ho | c e Hc Hskip Htry He Ho];
      cbn [current lastdocid set_current] in *.
    + destruct (Z.eq_dec c did) as [->|Hne].
      * exists (set_current p did). subst p1. repeat split.
      * exfalso. apply Hnot, (Hskip did). lia.
    + exfalso. apply Hnot, (Hskip did). lia.
    + destruct (Z.eq_dec c did) as [->|Hne].
      * assert (Hx : @Value bool true = Throw e) by (rewrite <- Hacc; exact Htry).
        discriminate.
      * exfalso. apply Hnot, (Hskip did). lia.
Qed.

(** C5 at a failing input.  Ids 1 to 3, document 2 deleted, behind a
    backend that opens lazily; slot 3, range ["", "200"]; a new cursor.
    [check 2] sets [valid], with the cursor on docid 2 and not at its end:
    a definite match on the deleted document.  [skip_to 2] from the same
    cursor passes over docid 2 - an empty value makes [next] open the
    document again with [lazy = false], which throws - and stops on 3. *)
Theorem check_confirms_deleted_document (lvl : AssertLevel) :
  open_document lazy_holed_db 2 false = Throw DocNotFoundError /\
  check lvl 2 0%Q lazy_holed_cursor = Returned true (set_current lazy_holed_cursor 2) /\
  at_end (set_current lazy_holed_cursor 2) = false /\
  current (set_current lazy_holed_cursor 2) = 2 /\
  skip_to lvl 2 0%Q lazy_holed_cursor = Returned tt (set_current lazy_holed_cursor 3) /\
  current (set_current lazy_holed_cursor 3) = 3.
Proof. destruct lvl; vm_compute; repeat split. Qed.

(* ------------------------------------------------------------------ *)
(** * Further properties of the cursor                                   *)
(* ------------------------------------------------------------------ *)

(** ** Where [next] leaves the cursor *)

(** X1.  A [next] that returns on a cursor with a backend leaves it in one
    of two ways.  Either it is positioned: only [current] has changed, it
    has grown and is at most [lastdocid], the value of that document is in
    the range, and every id in between was passed over.  Or it is at its
    end: [db] is null, [current] is the larger of its old value and
    [lastdocid], and every id up to [lastdocid] was passed over. *)
Theorem next_postcondition (lvl : AssertLevel) (p p' : ValueRangePostList)
        (d : Database) (w : weight) :
  valid_cursor p -> db p = Some d ->
  next lvl w p = Returned tt p' ->
  (at_end p' = false /\
   p' = set_current p (current p') /\
   current p < current p' <= lastdocid p /\
   value_in_range d p (current p') /\
   (forall i, current p < i < current p' -> passed_over d p i))
  \/
  (at_end p' = true /\
   p' = set_db_null (set_current p (Z.max (current p) (lastdocid p))) /\
   (forall i, current p < i <= lastdocid p -> passed_over d p i)).
Proof.
  intros Hv Hdb Heq.
  pose proof (next_scan lvl w p d Hv Hdb) as Hscan.
  rewrite Heq in Hscan.
  inversion Hscan as [c Hc Hskip Htry Hp' | Hskip Hp' |]; subst.
  - left. cbn [current set_current].
    split; [unfold at_end, db_not_null; cbn; now rewrite Hdb|].
    split; [reflexivity|]. split; [exact Hc|]. split; [|exact Hskip].
    apply (next_try_accepts d (set_current p c)), Htry.
  - right. split; [reflexivity|]. split; [reflexivity | exact Hskip].
Qed.

Lemma next_postcondition_witness :
  valid_cursor five_cursor /\ db five_cursor = Some five_db /\
  next Assertions 0%Q five_cursor = Returned tt (set_current five_cursor 2) /\
  ((at_end (set_current five_cursor 2) = false /\
    set_current five_cursor 2
      = set_current five_cursor (current (set_current five_cursor 2)) /\
    current five_cursor < current (set_current five_cursor 2) <= lastdocid five_cursor /\
    value_in_range five_db five_cursor (current (set_current five_cursor 2)) /\
    (forall i, current five_cursor < i < current (set_current five_cursor 2) ->
               passed_over five_db five_cursor i))
   \/
   (at_end (set_current five_cursor 2) = true /\
    set_current five_cursor 2
      = set_db_null (set_current five_cursor
                       (Z.max (current five_cursor) (lastdocid five_cursor))) /\
    (forall i, current five_cursor < i <= lastdocid five_cursor ->
               passed_over five_db five_cursor i))).
Proof.
  split; [exact five_cursor_valid|]. split; [reflexivity|]. split; [reflexivity|].
  exact (next_postcondition Assertions five_cursor (set_current five_cursor 2)
           five_db 0%Q five_cursor_valid eq_refl eq_refl).
Defined.

(** What an accepting [try] block of [next] has seen: a value in the range
    and, when that value is empty, a document that opens with
    [lazy = false]. *)
Lemma next_try_revalidates (d : Database) (p : ValueRangePostList) :
  next_try d p = Value true ->
  exists doc v,
    open_document d (current p) true = Value doc /\
    get_value doc (valno p) = Value v /\
    in_range p v = true /\
    (v = EmptyString -> exists doc', open_document d (current p) false = Value doc').
Proof.
  unfold next_try, result_bind.
  destruct (open_document d (current p) true) as [doc|e] eqn:Hopen; [|discriminate].
  destruct (get_value doc (valno p)) as [v|e] eqn:Hget; [|discriminate].
  destruct (in_range p v) eqn:Hin; [|discriminate].
  intros Hacc. exists doc, v. repeat split; try assumption.
  intros ->. cbn [string_empty] in Hacc.
  destruct (open_document d (current p) false) as [doc'|e]; [|discriminate].
  now exists doc'.
Qed.

(** X2.  Neither [next] nor a [skip_to] that moves stops on a document that
    has no value in the slot and does not exist: when the cursor comes to
    rest on a document whose value is empty (an empty lower bound lets it
    into the range), that document has been opened once more with
    [lazy = false], and the open succeeded. *)
Theorem stops_on_existing_document (lvl : AssertLevel) (p p' : ValueRangePostList)
        (d : Database) (did : docid) (w : weight) :
  valid_cursor p -> db p = Some d -> is_docid did ->
  next lvl w p = Returned tt p' \/
  (current p < did /\ skip_to lvl did w p = Returned tt p') ->
  at_end p' = false ->
  exists doc v,
    open_document d (current p') true = Value doc /\
    get_value doc (valno p) = Value v /\
    in_range p v = true /\
    (v = EmptyString -> exists doc', open_document d (current p') false = Value doc').
Proof.
  intros Hv Hdb Hdid Hcall Hend'.
  assert (Hacc : next_try d p' = Value true /\ valno p' = valno p /\
                 begin_ p' = begin_ p /\ end_ p' = end_ p).
  { destruct Hcall as [Heq | [Hlt Heq]].
    - pose proof (next_scan lvl w p d Hv Hdb) as Hscan. rewrite Heq in Hscan.
      inversion Hscan as [c Hc Hskip Htry Hp' | Hskip Hp' |]; subst.
      + repeat split. exact Htry.
      + discriminate.
    - pose proof (skip_to_scan lvl did w p d Hv Hdb Hdid Hlt) as Hscan.
      rewrite Heq in Hscan.
      inversion Hscan as [c Hc Hskip Htry Hp' | Hskip Hp' |]; subst.
      + repeat split. exact Htry.
      + discriminate. }
  destruct Hacc as (Htry & Hvalno & Hb & He).
  destruct (next_try_revalidates d p' Htry) as (doc & v & Hopen & Hget & Hin & Hstrict).
  exists doc, v. rewrite <- Hvalno.
  repeat split; try assumption.
  unfold in_range in *. now rewrite <- Hb, <- He.
Qed.

Lemma lazy_holed_cursor_valid : valid_cursor lazy_holed_cursor.
Proof. apply new_cursor_valid; unfold is_docid, is_doccount, docid_modulus; cbn; lia. Qed.

Lemma stops_on_existing_document_witness :
  valid_cursor lazy_holed_cursor /\ db lazy_holed_cursor = Some lazy_holed_db /\
  is_docid 2 /\
  (next Assertions 0%Q lazy_holed_cursor = Returned tt (set_current lazy_holed_cursor 3) \/
   (current lazy_holed_cursor < 2 /\
    skip_to Assertions 2 0%Q lazy_holed_cursor
      = Returned tt (set_current lazy_holed_cursor 3))) /\
  at_end (set_current lazy_holed_cursor 3) = false /\
  exists doc v,
    open_document lazy_holed_db (current (set_current lazy_holed_cursor 3)) true
      = Value doc /\
    get_value doc (valno lazy_holed_cursor) = Value v /\
    in_range lazy_holed_cursor v = true /\
    (v = EmptyString ->
     exists doc',
       open_document lazy_holed_db (current (set_current lazy_holed_cursor 3)) false
         = Value doc').
Proof.
  assert (Hd : is_docid 2) by (unfold is_docid, docid_modulus; lia).
  assert (Hcall :
    next Assertions 0%Q lazy_holed_cursor = Returned tt (set_current lazy_holed_cursor 3) \/
    (current lazy_holed_cursor < 2 /\
     skip_to Assertions 2 0%Q lazy_holed_cursor
       = Returned tt (set_current lazy_holed_cursor 3))).
  { right. split; [cbn; lia | reflexivity]. }
  split; [exact lazy_holed_cursor_valid|]. split; [reflexivity|].
  split; [exact Hd|]. split; [exact Hcall|]. split; [reflexivity|].
  exact (stops_on_existing_document Assertions lazy_holed_cursor
           (set_current lazy_holed_cursor 3) lazy_holed_db 2 0%Q
           lazy_holed_cursor_valid eq_refl Hd Hcall eq_refl).
Defined.

(** ** Reading the position *)

(** X3.  After a [next] that returns without reaching the end, [get_docid]
    and [get_doclength] return in every build - both of their assertions
    hold - and the docid is between 1 and [lastdocid]. *)
Theorem get_docid_after_next (lvl : AssertLevel) (p p' : ValueRangePostList)
        (d : Database) (w : weight) :
  valid_cursor p -> db p = Some d ->
  next lvl w p = Returned tt p' -> at_end p' = false ->
  get_docid lvl p' = Returned (current p') p' /\
  0 < current p' <= lastdocid p' /\
  get_doclength lvl p' = Returned 0%Q p'.
Proof.
  intros Hv Hdb Heq Hend'.
  pose proof (next_scan lvl w p d Hv Hdb) as Hscan. rewrite Heq in Hscan.
  inversion Hscan as [c Hc Hskip Htry Hp' | Hskip Hp' |]; subst; [|discriminate].
  destruct Hv as ([Hc0 _] & _).
  assert (Hnz : (c =? 0) = false) by (apply Z.eqb_neq; lia).
  unfold get_docid, get_doclength, bind, ret.
  rewrite (Assert_holds lvl (fun q => negb (current q =? 0)) (set_current p c))
    by (cbn; now rewrite Hnz).
  rewrite (Assert_holds lvl db_not_null (set_current p c))
    by (apply db_not_null_at_end; exact Hend').
  cbn [current lastdocid set_current]. repeat split; lia.
Qed.

Lemma get_docid_after_next_witness :
  valid_cursor five_cursor /\ db five_cursor = Some five_db /\
  next Assertions 0%Q five_cursor = Returned tt (set_current five_cursor 2) /\
  at_end (set_current five_cursor 2) = false /\
  get_docid Assertions (set_current five_cursor 2)
    = Returned (current (set_current five_cursor 2)) (set_current five_cursor 2) /\
  0 < current (set_current five_cursor 2) <= lastdocid (set_current five_cursor 2) /\
  get_doclength Assertions (set_current five_cursor 2)
    = Returned 0%Q (set_current five_cursor 2).
Proof.
  split; [exact five_cursor_valid|]. split; [reflexivity|]. split; [reflexivity|].
  split; [reflexivity|].
  exact (get_docid_after_next Assertions five_cursor (set_current five_cursor 2)
           five_db 0%Q five_cursor_valid eq_refl eq_refl eq_refl).
Defined.

(** ** Running a cursor to its end *)

Lemma ids_after_app (a b : nat) :
  forall lo, ids_after lo (a + b) = ids_after lo a ++ ids_after (lo + Z.of_nat a) b.
Proof.
  induction a as [|a IH]; intros lo.
  - cbn. now rewrite Z.add_0_r.
  - cbn [Nat.add ids_after app]. rewrite IH. do 3 f_equal. lia.
Qed.

Lemma ids_after_In (n : nat) :
  forall lo i, In i (ids_after lo n) <-> lo < i <= lo + Z.of_nat n.
Proof.
  induction n as [|n IH]; intros lo i.
  - cbn. lia.
  - cbn [ids_after In]. rewrite IH. lia.
Qed.

Lemma passed_over_not_accepted (d : Database) (p : ValueRangePostList) (i : docid) :
  passed_over d p i -> accepted d p i = false.
Proof. unfold accepted. intros [H|H]; rewrite H; reflexivity. Qed.

Lemma filter_none {A} (f : A -> bool) (l : list A) :
  (forall x, In x l -> f x = false) -> filter f l = [].
Proof.
  induction l as [|x l IH]; intros H; [reflexivity|].
  cbn. rewrite (H x (or_introl eq_refl)). apply IH. intros y Hy. apply H. now right.
Qed.

(** The ids that remain for [p], filtered by what [next] accepts. *)
Lemma run_to_end_filter (lvl : AssertLevel) (d : Database) (m : nat) :
  forall p n,
    Z.to_nat (lastdocid p - current p) = m ->
    valid_cursor p -> db p = Some d -> quiet_backend d p ->
    (List.length (filter (accepted d p)
       (ids_after (current p) (Z.to_nat (lastdocid p - current p)))) < n)%nat ->
    run_to_end lvl n p =
    Some (filter (accepted d p)
            (ids_after (current p) (Z.to_nat (lastdocid p - current p))),
          set_db_null (set_current p (Z.max (current p) (lastdocid p)))).
Proof.
  induction m as [m IH] using lt_wf_ind.
  intros p n Hm Hv Hdb Hquiet Hn.
  destruct n as [|n]; [lia|].
  cbn [run_to_end].
  pose proof (next_scan lvl 0%Q p d Hv Hdb) as Hscan.
  destruct Hscan as [c Hc Hskip Htry | Hskip | c e Hc Hskip Htry He].
  - (* stopped on [c] *)
    assert (Hend : at_end (set_current p c) = false)
      by (unfold at_end, db_not_null; cbn; now rewrite Hdb).
    rewrite Hend.
    pose proof Hv as ([Hc0 _] & [_ Hl] & _).
    assert (Hv1 : valid_cursor (set_current p c)).
    { apply (keeps_valid p); [exact Hv|].
      apply keeps_set_current. unfold is_docid. lia. }
    assert (Hsplit :
      filter (accepted d p)
        (ids_after (current p) (Z.to_nat (lastdocid p - current p)))
      = c :: filter (accepted d p) (ids_after c (Z.to_nat (lastdocid p - c)))).
    { replace (Z.to_nat (lastdocid p - current p))
        with (Z.to_nat (c - current p - 1) + S (Z.to_nat (lastdocid p - c)))%nat by lia.
      rewrite ids_after_app, filter_app.
      rewrite filter_none.
      - cbn [app ids_after].
        replace (current p + Z.of_nat (Z.to_nat (c - current p - 1)) + 1) with c by lia.
        cbn [filter]. unfold accepted at 1. rewrite Htry. reflexivity.
      - intros i Hi. apply ids_after_In in Hi.
        apply passed_over_not_accepted, Hskip. lia. }
    rewrite Hsplit in Hn |- *. cbn [List.length] in Hn.
    assert (Hrest :
      run_to_end lvl n (set_current p c) =
      Some (filter (accepted d p) (ids_after c (Z.to_nat (lastdocid p - c))),
            set_db_null (set_current p (Z.max c (lastdocid p))))).
    { apply (IH (Z.to_nat (lastdocid p - c)) ltac:(lia) (set_current p c) n).
      - reflexivity.
      - exact Hv1.
      - exact Hdb.
      - intros i e Hi. apply Hquiet. cbn [current lastdocid set_current] in Hi. lia.
      - change (accepted d (set_current p c)) with (accepted d p).
        cbn [current lastdocid set_current]. lia. }
    rewrite Hrest. cbn [current set_current].
    replace (Z.max c (lastdocid p)) with (Z.max (current p) (lastdocid p)) by lia.
    reflexivity.
  - (* ran to the end *)
    cbn [at_end db_not_null db set_db_null negb].
    rewrite filter_none; [reflexivity|].
    intros i Hi. apply ids_after_In in Hi.
    destruct Hv as ([Hc0 _] & _).
    apply passed_over_not_accepted, Hskip. lia.
  - (* an exception that is not caught: excluded *)
    exfalso. apply He. apply (Hquiet c e); [lia | exact Htry].
Qed.

(** X4.  Where the backend throws nothing but [DocNotFoundError], the loop
    "call [next] until [at_end]" returns after one call more than there
    are matches, and what it collects is exactly the ids between [current]
    and [lastdocid] that [next] accepts, each once and in increasing
    order; it leaves the cursor at its end. *)
Theorem run_to_end_yields_matches (lvl : AssertLevel) (p : ValueRangePostList)
        (d : Database) (n : nat) :
  valid_cursor p -> db p = Some d -> quiet_backend d p ->
  (List.length (filter (accepted d p)
     (ids_after (current p) (Z.to_nat (lastdocid p - current p)))) < n)%nat ->
  exists pe,
    run_to_end lvl n p =
    Some (filter (accepted d p)
            (ids_after (current p) (Z.to_nat (lastdocid p - current p))), pe) /\
    at_end pe = true /\
    forall i,
      In i (filter (accepted d p)
              (ids_after (current p) (Z.to_nat (lastdocid p - current p))))
      <-> (current p < i <= lastdocid p /\ accepted d p i = true).
Proof.
  intros Hv Hdb Hquiet Hn.
  eexists. split; [|split].
  - apply (run_to_end_filter lvl d _ p n eq_refl Hv Hdb Hquiet Hn).
  - reflexivity.
  - intros i. rewrite filter_In, ids_after_In.
    split; intros [Hi Hacc]; (split; [lia | exact Hacc]).
Qed.

(** A backend that keeps a table and throws [DocNotFoundError] for what is
    not in it throws nothing else. *)
Lemma eager_database_quiet (docs : list (docid * Document)) (last : docid)
      (p : ValueRangePostList) :
  quiet_backend (eager_database docs last) p.
Proof.
  intros i e _. unfold next_try, result_bind, eager_database; cbn.
  destruct (find_document docs i) as [doc|]; cbn.
  - destruct (in_range _ _); [destruct (string_empty _)|]; discriminate.
  - now intros [= <-].
Qed.

Lemma run_to_end_yields_matches_witness :
  valid_cursor five_cursor /\ db five_cursor = Some five_db /\
  quiet_backend five_db five_cursor /\
  (List.length (filter (accepted five_db five_cursor)
     (ids_after (current five_cursor)
        (Z.to_nat (lastdocid five_cursor - current five_cursor)))) < 3)%nat /\
  exists pe,
    run_to_end Assertions 3 five_cursor =
    Some (filter (accepted five_db five_cursor)
            (ids_after (current five_cursor)
               (Z.to_nat (lastdocid five_cursor - current five_cursor))), pe) /\
    at_end pe = true /\
    forall i,
      In i (filter (accepted five_db five_cursor)
              (ids_after (current five_cursor)
                 (Z.to_nat (lastdocid five_cursor - current five_cursor))))
      <-> (current five_cursor < i <= lastdocid five_cursor /\
           accepted five_db five_cursor i = true).
Proof.
  assert (Hq : quiet_backend five_db five_cursor) by apply eager_database_quiet.
  assert (Hn : (List.length (filter (accepted five_db five_cursor)
     (ids_after (current five_cursor)
        (Z.to_nat (lastdocid five_cursor - current five_cursor)))) < 3)%nat).
  { vm_compute. repeat constructor. }
  split; [exact five_cursor_valid|]. split; [reflexivity|].
  split; [exact Hq|]. split; [exact Hn|].
  exact (run_to_end_yields_matches Assertions five_cursor five_db 3
           five_cursor_valid eq_refl Hq Hn).
Defined.

(** ** The position never goes back *)

Lemma next_loop_forward (fuel : nat) :
  forall p p',
    0 <= current p -> lastdocid p < docid_modulus ->
    final_state (next_loop fuel p) = Some p' ->
    current p <= current p' /\ in_bounds p'.
Proof.
  induction fuel as [|fuel IH]; intros p p' Hc Hl; cbn [next_loop]; [discriminate|].
  destruct (current p <? lastdocid p) eqn:Hcond.
  - apply Z.ltb_lt in Hcond.
    rewrite (docid_incr_small (current p)) by lia.
    cbn [current set_current db].
    destruct (current p + 1 =? 0) eqn:Hz; [apply Z.eqb_eq in Hz; lia|].
    assert (Hhere : current p <= current (set_current p (current p + 1)) /\
                    in_bounds (set_current p (current p + 1))).
    { unfold in_bounds. cbn. split; [lia | intros _; lia]. }
    assert (Hrec : final_state (next_loop fuel (set_current p (current p + 1))) = Some p' ->
                   current p <= current p' /\ in_bounds p').
    { intros H. apply IH in H; cbn [current lastdocid set_current] in *; try lia.
      split; [lia | tauto]. }
    destruct (db p) as [d|].
    + destruct (next_try d (set_current p (current p + 1))) as [[|]|[| |]];
        try (cbn; intros [= <-]; exact Hhere); exact Hrec.
    + cbn. intros [= <-]. exact Hhere.
  - cbn. intros [= <-]. split; [cbn; lia | intros H; discriminate].
Qed.

Lemma next_forward (lvl : AssertLevel) (w : weight) (p p' : ValueRangePostList) :
  valid_cursor p -> in_bounds p ->
  final_state (next lvl w p) = Some p' ->
  current p <= current p' /\ in_bounds p'.
Proof.
  intros Hv Hb. pose proof Hv as ([Hc _] & [_ Hl] & _).
  assert (Hsame : current p <= current p /\ in_bounds p) by (split; [lia | exact Hb]).
  unfold next, bind, Assert, AssertParanoid_lastdocid.
  destruct (assert_on lvl && negb (db_not_null p)).
  { cbn. intros [= <-]. exact Hsame. }
  destruct (paranoid_on lvl).
  - destruct (db p) as [d|].
    + destruct (lastdocid p =? get_lastdocid d).
      * apply next_loop_forward; assumption.
      * cbn. intros [= <-]. exact Hsame.
    + cbn. intros [= <-]. exact Hsame.
  - apply next_loop_forward; assumption.
Qed.

Lemma skip_to_forward (lvl : AssertLevel) (did : docid) (w : weight)
      (p p' : ValueRangePostList) :
  valid_cursor p -> in_bounds p -> is_docid did ->
  final_state (skip_to lvl did w p) = Some p' ->
  current p <= current p' /\ in_bounds p'.
Proof.
  intros Hv Hb Hdid. pose proof Hv as ([Hc _] & [_ Hl] & _).
  assert (Hsame : current p <= current p /\ in_bounds p) by (split; [lia | exact Hb]).
  assert (Hloop : current p < did ->
                  final_state (next_loop (next_fuel (set_current p (did - 1)))
                                 (set_current p (did - 1))) = Some p' ->
                  current p <= current p' /\ in_bounds p').
  { intros Hlt H. apply next_loop_forward in H; cbn [current lastdocid set_current] in *;
      try lia. split; [lia | tauto]. }
  destruct (at_end p) eqn:Hend.
  - (* no backend left *)
    assert (Hnn : db_not_null p = false)
      by (unfold at_end in Hend; destruct (db_not_null p); [discriminate | reflexivity]).
    destruct (assert_on lvl) eqn:Hon.
    + unfold skip_to, bind. rewrite (Assert_fails lvl db_not_null p Hon Hnn).
      cbn. intros [= <-]. exact Hsame.
    + unfold skip_to, bind. rewrite (Assert_off lvl db_not_null p Hon). cbn beta.
      destruct (did <=? current p) eqn:Hle.
      { cbn. intros [= <-]. exact Hsame. }
      apply Z.leb_gt in Hle.
      rewrite docid_pred_small by (unfold is_docid in Hdid; lia).
      unfold next, bind, AssertParanoid_lastdocid.
      rewrite (Assert_off lvl db_not_null _ Hon), (assert_off_not_paranoid lvl Hon).
      apply Hloop, Hle.
  - destruct (Z.le_gt_cases did (current p)) as [Hle|Hgt].
    + rewrite (skip_to_noop lvl did w p Hend Hle). cbn. intros [= <-]. exact Hsame.
    + rewrite (skip_to_unfold lvl did w p Hv Hend Hdid Hgt). apply Hloop, Hgt.
Qed.

Lemma check_forward (lvl : AssertLevel) (did : docid) (w : weight)
      (p p' : ValueRangePostList) :
  valid_cursor p -> in_bounds p ->
  final_state (check lvl did w p) = Some p' ->
  current p <= current p' /\ in_bounds p'.
Proof.
  intros Hv Hb.
  assert (Hsame : current p <= current p /\ in_bounds p) by (split; [lia | exact Hb]).
  unfold check, bind, Assert, AssertParanoid_lastdocid.
  destruct (assert_on lvl && negb (db_not_null p)).
  { cbn. intros [= <-]. exact Hsame. }
  destruct (did <=? current p) eqn:Hle.
  { cbn. intros [= <-]. exact Hsame. }
  apply Z.leb_gt in Hle.
  assert (Htail : forall q,
    final_state
      (if lastdocid p <? did then Returned true (set_db_null p)
       else match db (set_current p did) with
            | None => NullDeref (set_current p did)
            | Some d =>
                match check_try d (set_current p did) with
                | Value true => Returned true (set_current p did)
                | Value false => Returned false (set_current p did)
                | Throw DocNotFoundError => Returned false (set_current p did)
                | Throw e => Raised e (set_current p did)
                end
            end) = Some q -> current p <= current q /\ in_bounds q).
  { intros q. destruct (lastdocid p <? did) eqn:Hgt.
    - cbn. intros [= <-]. split; [cbn; lia | intros H; discriminate].
    - apply Z.ltb_ge in Hgt.
      assert (Hk : current p <= current (set_current p did) /\
                   in_bounds (set_current p did)).
      { unfold in_bounds. cbn. split; [lia | intros _; lia]. }
      destruct (db (set_current p did)) as [d|].
      + destruct (check_try d (set_current p did)) as [[|]|[| |]];
          cbn; intros [= <-]; exact Hk.
      + cbn. intros [= <-]. exact Hk. }
  destruct (paranoid_on lvl).
  - destruct (db p) as [d|] eqn:Hdb.
    + destruct (lastdocid p =? get_lastdocid d).
      * apply Htail.
      * cbn. intros [= <-]. exact Hsame.
    + cbn. intros [= <-]. exact Hsame.
  - apply Htail.
Qed.

(** X5.  Through any sequence of [next], [skip_to] and [check] calls with
    docid arguments, in any build and however the calls end, [current]
    never decreases, and a cursor that still has its backend is never
    positioned behind [lastdocid]. *)
Theorem position_never_goes_back (lvl : AssertLevel) (l : list Advance) :
  forall p p',
    valid_cursor p -> in_bounds p -> Forall Advance_wf l ->
    advance_all lvl l p = Some p' ->
    current p <= current p' /\ in_bounds p' /\ valid_cursor p'.
Proof.
  induction l as [|a l IH]; intros p p' Hv Hb Hwf; cbn [advance_all].
  - intros [= <-]. split; [lia | split; [exact Hb | exact Hv]].
  - inversion Hwf as [|a' l' Ha Hl]; subst.
    destruct (advance lvl a p) as [p1|] eqn:Hstep; [|discriminate].
    intros Hrest.
    assert (Hv1 : valid_cursor p1).
    { apply (keeps_valid p); [exact Hv | eapply advance_keeps; eassumption]. }
    assert (H1 : current p <= current p1 /\ in_bounds p1).
    { destruct a as [w|did w|did w]; cbn [advance Advance_wf] in *.
      - eapply next_forward; eassumption.
      - eapply skip_to_forward; eassumption.
      - eapply check_forward; eassumption. }
    destruct H1 as [Hle1 Hb1].
    destruct (IH p1 p' Hv1 Hb1 Hl Hrest) as (Hle2 & Hb' & Hv').
    split; [lia | split; [exact Hb' | exact Hv']].
Qed.

Lemma position_never_goes_back_witness :
  valid_cursor five_cursor /\ in_bounds five_cursor /\
  Forall Advance_wf [DoNext 0%Q; DoCheck 4 0%Q; DoSkipTo 3 0%Q] /\
  advance_all Assertions [DoNext 0%Q; DoCheck 4 0%Q; DoSkipTo 3 0%Q] five_cursor
    = Some (set_current five_cursor 4) /\
  current five_cursor <= current (set_current five_cursor 4) /\
  in_bounds (set_current five_cursor 4) /\
  valid_cursor (set_current five_cursor 4).
Proof.
  assert (Hb : in_bounds five_cursor) by (intros _; cbn; lia).
  assert (Hwf : Forall Advance_wf [DoNext 0%Q; DoCheck 4 0%Q; DoSkipTo 3 0%Q]).
  { repeat constructor; unfold is_docid, docid_modulus; lia. }
  split; [exact five_cursor_valid|]. split; [exact Hb|]. split; [exact Hwf|].
  split; [reflexivity|].
  exact (position_never_goes_back Assertions
           [DoNext 0%Q; DoCheck 4 0%Q; DoSkipTo 3 0%Q]
           five_cursor (set_current five_cursor 4)
           five_cursor_valid Hb Hwf eq_refl).
Defined.

(** ** What a cursor is about never changes *)

(** X6.  However a valid cursor is advanced, its slot, its two bounds, the
    cached last docid and the cached document count stay what they were,
    its backend is the one it had or none, and therefore its description
    stays the same text. *)
Theorem configuration_is_fixed (lvl : AssertLevel) (om_tostring : valueno -> string)
        (p p' : ValueRangePostList) :
  valid_cursor p -> later lvl p p' ->
  valno p' = valno p /\ begin_ p' = begin_ p /\ end_ p' = end_ p /\
  lastdocid p' = lastdocid p /\ db_size p' = db_size p /\
  (db p' = db p \/ db p' = None) /\
  get_description om_tostring p' = get_description om_tostring p.
Proof.
  intros Hv Hlater.
  destruct (later_keeps lvl p p' Hv Hlater) as [(Hn & Hb & He & Hl & Hs & Hd & _) _].
  repeat split; try assumption.
  unfold get_description. now rewrite Hn, Hb, He.
Qed.

Lemma configuration_is_fixed_witness :
  valid_cursor five_cursor /\
  later NoAssertions five_cursor five_cursor_ended /\
  valno five_cursor_ended = valno five_cursor /\
  begin_ five_cursor_ended = begin_ five_cursor /\
  end_ five_cursor_ended = end_ five_cursor /\
  lastdocid five_cursor_ended = lastdocid five_cursor /\
  db_size five_cursor_ended = db_size five_cursor /\
  (db five_cursor_ended = db five_cursor \/ db five_cursor_ended = None) /\
  get_description (fun _ => "3"%string) five_cursor_ended
    = get_description (fun _ => "3"%string) five_cursor.
Proof.
  assert (Hlater : later NoAssertions five_cursor five_cursor_ended).
  { apply (later_step NoAssertions five_cursor (DoSkipTo 6 0%Q) five_cursor).
    - apply later_now.
    - vm_compute. reflexivity. }
  split; [exact five_cursor_valid|]. split; [exact Hlater|].
  exact (configuration_is_fixed NoAssertions (fun _ => "3"%string)
           five_cursor five_cursor_ended five_cursor_valid Hlater).
Defined.

Lemma string_app_assoc (a b c : string) :
  ((a ++ b) ++ c)%string = (a ++ (b ++ c))%string.
Proof. induction a as [|ch a IH]; cbn; [reflexivity | now rewrite IH]. Qed.

(** X7.  The description does not tell the two bounds apart: the
    separator ", " is written between them as it is, so a cursor whose
    lower bound is [a ++ ", " ++ b] and whose upper bound is [c] has the
    description of the cursor over the same slot with bounds [a] and
    [b ++ ", " ++ c]. *)
Theorem description_is_ambiguous (om_tostring : valueno -> string)
        (p q : ValueRangePostList) (a b c : string) :
  valno p = valno q ->
  begin_ p = (a ++ ", " ++ b)%string -> end_ p = c ->
  begin_ q = a -> end_ q = (b ++ ", " ++ c)%string ->
  get_description om_tostring p = get_description om_tostring q.
Proof.
  intros Hn Hbp Hep Hbq Heq.
  unfold get_description. rewrite Hn, Hbp, Hep, Hbq, Heq.
  repeat rewrite string_app_assoc. reflexivity.
Qed.

Lemma description_is_ambiguous_witness :
  valno (new_ValueRangePostList five_db 3 "a, b" "c")
    = valno (new_ValueRangePostList five_db 3 "a" "b, c") /\
  begin_ (new_ValueRangePostList five_db 3 "a, b" "c") = ("a" ++ ", " ++ "b")%string /\
  end_ (new_ValueRangePostList five_db 3 "a, b" "c") = "c"%string /\
  begin_ (new_ValueRangePostList five_db 3 "a" "b, c") = "a"%string /\
  end_ (new_ValueRangePostList five_db 3 "a" "b, c") = ("b" ++ ", " ++ "c")%string /\
  get_description (fun _ => "3"%string) (new_ValueRangePostList five_db 3 "a, b" "c")
    = get_description (fun _ => "3"%string) (new_ValueRangePostList five_db 3 "a" "b, c").
Proof.
  repeat (split; [reflexivity|]).
  exact (description_is_ambiguous (fun _ => "3"%string)
           (new_ValueRangePostList five_db 3 "a, b" "c")
           (new_ValueRangePostList five_db 3 "a" "b, c")
           "a" "b" "c" eq_refl eq_refl eq_refl eq_refl eq_refl).
Defined.

(** ** [skip_to] and [next] together *)

(** X8.  [skip_to] is idempotent, and more: once [skip_to did] has returned
    with the cursor not at its end, a further [skip_to] to [did] or to any
    smaller id returns at once and leaves the cursor where it is. *)
Theorem skip_to_again_is_noop (lvl : AssertLevel) (p p' : ValueRangePostList)
        (d : Database) (did did' : docid) (w w' : weight) :
  valid_cursor p -> db p = Some d -> is_docid did ->
  skip_to lvl did w p = Returned tt p' -> at_end p' = false ->
  did' <= did ->
  skip_to lvl did' w' p' = Returned tt p'.
Proof.
  intros Hv Hdb Hdid Heq Hend' Hle'.
  assert (Hend : at_end p = false) by (unfold at_end, db_not_null; now rewrite Hdb).
  apply skip_to_noop; [exact Hend'|].
  destruct (Z.le_gt_cases did (current p)) as [Hle|Hgt].
  - rewrite (skip_to_noop lvl did w p Hend Hle) in Heq.
    injection Heq as <-. lia.
  - pose proof (skip_to_scan lvl did w p d Hv Hdb Hdid Hgt) as Hscan.
    rewrite Heq in Hscan.
    inversion Hscan as [c Hc Hskip Htry Hp' | Hskip Hp' |]; subst.
    + cbn [current set_current] in *. lia.
    + discriminate.
Qed.

Lemma skip_to_again_is_noop_witness :
  valid_cursor five_cursor /\ db five_cursor = Some five_db /\ is_docid 3 /\
  skip_to Assertions 3 0%Q five_cursor = Returned tt (set_current five_cursor 3) /\
  at_end (set_current five_cursor 3) = false /\ 2 <= 3 /\
  skip_to Assertions 2 0%Q (set_current five_cursor 3)
    = Returned tt (set_current five_cursor 3).
Proof.
  assert (Hd : is_docid 3) by (unfold is_docid, docid_modulus; lia).
  assert (Hle : 2 <= 3) by lia.
  split; [exact five_cursor_valid|]. split; [reflexivity|]. split; [exact Hd|].
  split; [reflexivity|]. split; [reflexivity|]. split; [exact Hle|].
  exact (skip_to_again_is_noop Assertions five_cursor (set_current five_cursor 3)
           five_db 3 2 0%Q 0%Q five_cursor_valid eq_refl Hd eq_refl eq_refl Hle).
Defined.

(** One turn of the loop over a document that is passed over. *)
Lemma next_over_passed (lvl : AssertLevel) (w : weight)
      (p : ValueRangePostList) (d : Database) :
  valid_cursor p -> db p = Some d ->
  current p < lastdocid p ->
  passed_over d p (current p + 1) ->
  next lvl w p = next lvl w (set_current p (current p + 1)).
Proof.
  intros Hv Hdb Hlt Hpass.
  assert (Hend : at_end p = false) by (unfold at_end, db_not_null; now rewrite Hdb).
  pose proof Hv as ([Hc _] & [_ Hl] & _).
  assert (Hv1 : valid_cursor (set_current p (current p + 1))).
  { apply (keeps_valid p); [exact Hv|].
    apply keeps_set_current. unfold is_docid. lia. }
  rewrite (next_unfold lvl w p Hv Hend).
  rewrite (next_unfold lvl w (set_current p (current p + 1)) Hv1 Hend).
  unfold next_fuel at 1. cbn [next_loop].
  destruct (current p <? lastdocid p) eqn:Hcond; [|apply Z.ltb_ge in Hcond; lia].
  rewrite (docid_incr_small (current p)) by lia.
  cbn [current set_current db].
  destruct (current p + 1 =? 0) eqn:Hz; [apply Z.eqb_eq in Hz; lia|].
  rewrite Hdb.
  assert (Hfuel : Z.to_nat (lastdocid p - current p)
                  = next_fuel (set_current p (current p + 1))).
  { unfold next_fuel. cbn [current lastdocid set_current]. lia. }
  destruct Hpass as [Htry|Htry]; rewrite Htry, Hfuel; reflexivity.
Qed.

Lemma next_over_passed_range (lvl : AssertLevel) (w : weight) (d : Database)
      (target : docid) (k : nat) :
  forall p,
    Z.to_nat (target - current p) = k ->
    valid_cursor p -> db p = Some d ->
    current p <= target <= lastdocid p ->
    (forall i, current p < i <= target -> passed_over d p i) ->
    next lvl w p = next lvl w (set_current p target).
Proof.
  induction k as [|k IH]; intros p Hk Hv Hdb Hrange Hpass.
  - replace target with (current p) by lia. now rewrite set_current_same.
  - pose proof Hv as ([Hc _] & [_ Hl] & _).
    rewrite (next_over_passed lvl w p d Hv Hdb) by (try apply Hpass; lia).
    rewrite (IH (set_current p (current p + 1)));
      cbn [current lastdocid set_current db]; try assumption; try lia.
    + reflexivity.
    + apply (keeps_valid p); [exact Hv|].
      apply keeps_set_current. unfold is_docid. lia.
    + intros i Hi. apply (Hpass i). lia.
Qed.

(** X9.  [skip_to did] does what [next] does whenever [next] would pass
    over every id before [did] anyway; in particular [skip_to] to the id
    right behind the current one is [next].  ([did] may be one more than
    [lastdocid]: both calls then end the cursor on [lastdocid].) *)
Theorem skip_to_is_next (lvl : AssertLevel) (p : ValueRangePostList)
        (d : Database) (did : docid) (w : weight) :
  valid_cursor p -> db p = Some d -> is_docid did ->
  current p < did <= lastdocid p + 1 ->
  (forall i, current p < i < did -> passed_over d p i) ->
  skip_to lvl did w p = next lvl w p.
Proof.
  intros Hv Hdb Hdid Hrange Hpass.
  assert (Hend : at_end p = false) by (unfold at_end, db_not_null; now rewrite Hdb).
  assert (Hv1 : valid_cursor (set_current p (did - 1))).
  { apply (keeps_valid p); [exact Hv|].
    apply keeps_set_current. destruct Hv as ([Hc _] & _).
    unfold is_docid in *. lia. }
  rewrite (skip_to_unfold lvl did w p Hv Hend Hdid) by lia.
  rewrite <- (next_unfold lvl w (set_current p (did - 1)) Hv1 Hend).
  symmetry.
  apply (next_over_passed_range lvl w d (did - 1) _ p eq_refl Hv Hdb); [lia|].
  intros i Hi. apply Hpass. lia.
Qed.

Lemma skip_to_is_next_witness :
  valid_cursor five_cursor /\ db five_cursor = Some five_db /\ is_docid 2 /\
  current five_cursor < 2 <= lastdocid five_cursor + 1 /\
  (forall i, current five_cursor < i < 2 -> passed_over five_db five_cursor i) /\
  skip_to Assertions 2 0%Q five_cursor = next Assertions 0%Q five_cursor.
Proof.
  assert (Hd : is_docid 2) by (unfold is_docid, docid_modulus; lia).
  assert (Hr : current five_cursor < 2 <= lastdocid five_cursor + 1) by (cbn; lia).
  assert (Hp : forall i, current five_cursor < i < 2 ->
                         passed_over five_db five_cursor i).
  { intros i Hi. cbn in Hi. replace i with 1 by lia. left. reflexivity. }
  split; [exact five_cursor_valid|]. split; [reflexivity|]. split; [exact Hd|].
  split; [exact Hr|]. split; [exact Hp|].
  exact (skip_to_is_next Assertions five_cursor five_db 2 0%Q
           five_cursor_valid eq_refl Hd Hr Hp).
Defined.

(** ** What [check] answers *)

Lemma value_in_range_check_try (d : Database) (p : ValueRangePostList) (i : docid) :
  value_in_range d p i <-> check_try d (set_current p i) = Value true.
Proof.
  split.
  - intros (doc & v & Hopen & Hget & Hin).
    unfold check_try, result_bind. cbn [current valno set_current].
    rewrite Hopen, Hget.
    change (in_range (set_current p i) v) with (in_range p v).
    now rewrite Hin.
  - intros H. apply (check_try_accepts d (set_current p i)), H.
Qed.

(** X10.  For a target between the current position and [lastdocid],
    [check] decides by the value alone.  If the document's value is in the
    range, it returns with [valid] set and the cursor on the target.  If
    [check] returns with [valid] set, the value is in the range; if it
    returns with [valid] cleared, the value is not in the range (or there
    is no such document), and the cursor has still been moved onto the
    target and is not at its end. *)
Theorem check_decides_by_value (lvl : AssertLevel) (p : ValueRangePostList)
        (d : Database) (did : docid) (w : weight) :
  valid_cursor p -> db p = Some d ->
  current p < did <= lastdocid p ->
  (value_in_range d p did ->
   check lvl did w p = Returned true (set_current p did)) /\
  (forall p1, check lvl did w p = Returned true p1 ->
              value_in_range d p did /\ p1 = set_current p did) /\
  (forall p1, check lvl did w p = Returned false p1 ->
              ~ value_in_range d p did /\ p1 = set_current p did /\
              at_end p1 = false).
Proof.
  intros Hv Hdb Hrange.
  assert (Hend : at_end p = false) by (unfold at_end, db_not_null; now rewrite Hdb).
  rewrite (check_unfold lvl did w p d Hv Hdb).
  destruct (did <=? current p) eqn:Hle; [apply Z.leb_le in Hle; lia|].
  destruct (lastdocid p <? did) eqn:Hgt; [apply Z.ltb_lt in Hgt; lia|].
  pose proof (value_in_range_check_try d p did) as [Hto Hfrom].
  destruct (check_try d (set_current p did)) as [[|]|[| |]] eqn:Htry.
  - split; [reflexivity|]. split.
    + intros p1 [= <-]. split; [apply Hfrom; reflexivity | reflexivity].
    + intros p1 H. discriminate.
  - split; [intros H; apply Hto in H; discriminate|]. split.
    + intros p1 H. discriminate.
    + intros p1 [= <-].
      split; [intros H; apply Hto in H; discriminate|].
      split; [reflexivity | exact Hend].
  - split; [intros H; apply Hto in H; discriminate|].
    split; intros p1 H; discriminate.
  - split; [intros H; apply Hto in H; discriminate|]. split.
    + intros p1 H. discriminate.
    + intros p1 [= <-].
      split; [intros H; apply Hto in H; discriminate|].
      split; [reflexivity | exact Hend].
  - split; [intros H; apply Hto in H; discriminate|].
    split; intros p1 H; discriminate.
Qed.

Lemma check_decides_by_value_witness :
  valid_cursor five_cursor /\ db five_cursor = Some five_db /\
  current five_cursor < 4 <= lastdocid five_cursor /\
  ~ value_in_range five_db five_cursor 4 /\
  check Assertions 4 0%Q five_cursor = Returned false (set_current five_cursor 4) /\
  at_end (set_current five_cursor 4) = false.
Proof.
  assert (Hr : current five_cursor < 4 <= lastdocid five_cursor) by (cbn; lia).
  pose proof (check_decides_by_value Assertions five_cursor five_db 4 0%Q
                five_cursor_valid eq_refl Hr) as (_ & _ & Hfalse).
  destruct (Hfalse (set_current five_cursor 4) eq_refl) as (Hno & _ & Hend).
  split; [exact five_cursor_valid|]. split; [reflexivity|]. split; [exact Hr|].
  split; [exact Hno|]. split; [reflexivity | exact Hend].
Defined.

(** A non-empty lower bound keeps the empty value out of the range. *)
Lemma empty_value_out_of_range (p : ValueRangePostList) :
  begin_ p <> EmptyString -> in_range p EmptyString = false.
Proof.
  intros Hb. unfold in_range, String.leb.
  destruct (begin_ p) as [|c s]; [congruence | reflexivity].
Qed.

Lemma next_try_is_check_try (d : Database) (p : ValueRangePostList) :
  begin_ p <> EmptyString -> next_try d p = check_try d p.
Proof.
  intros Hb. unfold next_try, check_try, result_bind.
  destruct (open_document d (current p) true) as [doc|e]; [|reflexivity].
  destruct (get_value doc (valno p)) as [v|e]; [|reflexivity].
  destruct (in_range p v) eqn:Hin; [|reflexivity].
  destruct v as [|c v]; [|reflexivity].
  rewrite (empty_value_out_of_range p Hb) in Hin. discriminate.
Qed.

(** X11.  Over a range whose lower bound is not empty, a definite answer of
    [check] is the answer of [skip_to]: when [check did] returns with
    [valid] set, [skip_to did] from the same cursor returns as well, both
    cursors are at their end or neither is, and in the latter case the two
    are the same cursor. *)
Theorem check_agrees_over_nonempty_lower_bound (lvl : AssertLevel)
        (p p1 : ValueRangePostList) (d : Database) (did : docid) (w : weight) :
  valid_cursor p -> db p = Some d -> is_docid did ->
  begin_ p <> EmptyString ->
  check lvl did w p = Returned true p1 ->
  exists p2,
    skip_to lvl did w p = Returned tt p2 /\
    at_end p2 = at_end p1 /\
    (at_end p1 = false -> p2 = p1).
Proof.
  intros Hv Hdb Hdid Hb Hcheck.
  apply (check_agrees_with_skip_to lvl p p1 d did w Hv Hdb Hdid Hcheck).
  intros _. apply next_try_is_check_try. exact Hb.
Qed.

Lemma check_agrees_over_nonempty_lower_bound_witness :
  valid_cursor five_cursor /\ db five_cursor = Some five_db /\ is_docid 3 /\
  begin_ five_cursor <> EmptyString /\
  check Assertions 3 0%Q five_cursor = Returned true (set_current five_cursor 3) /\
  exists p2,
    skip_to Assertions 3 0%Q five_cursor = Returned tt p2 /\
    at_end p2 = at_end (set_current five_cursor 3) /\
    (at_end (set_current five_cursor 3) = false -> p2 = set_current five_cursor 3).
Proof.
  assert (Hd : is_docid 3) by (unfold is_docid, docid_modulus; lia).
  assert (Hb : begin_ five_cursor <> EmptyString) by discriminate.
  split; [exact five_cursor_valid|]. split; [reflexivity|]. split; [exact Hd|].
  split; [exact Hb|]. split; [reflexivity|].
  exact (check_agrees_over_nonempty_lower_bound Assertions five_cursor
           (set_current five_cursor 3) five_db 3 0%Q
           five_cursor_valid eq_refl Hd Hb eq_refl).
Defined.

(** ** Calls that cannot fail *)

Lemma quiet_next_try (d : Database) (p : ValueRangePostList) (e : Error) :
  (forall i lazy e, open_document d i lazy = Throw e -> e = DocNotFoundError) ->
  (forall i lazy doc n e, open_document d i lazy = Value doc ->
                          get_value doc n = Throw e -> e = DocNotFoundError) ->
  next_try d p = Throw e -> e = DocNotFoundError.
Proof.
  intros Hopen Hget. unfold next_try, result_bind.
  destruct (open_document d (current p) true) as [doc|e1] eqn:H1.
  - destruct (get_value doc (valno p)) as [v|e2] eqn:H2.
    + destruct (in_range p v); [|discriminate].
      destruct (string_empty v); [|discriminate].
      destruct (open_document d (current p) false) as [doc'|e3] eqn:H3; [discriminate|].
      intros [= <-]. eapply Hopen, H3.
    + intros [= <-]. eapply Hget; eassumption.
  - intros [= <-]. eapply Hopen, H1.
Qed.

Lemma quiet_check_try (d : Database) (p : ValueRangePostList) (e : Error) :
  (forall i lazy e, open_document d i lazy = Throw e -> e = DocNotFoundError) ->
  (forall i lazy doc n e, open_document d i lazy = Value doc ->
                          get_value doc n = Throw e -> e = DocNotFoundError) ->
  check_try d p = Throw e -> e = DocNotFoundError.
Proof.
  intros Hopen Hget. unfold check_try, result_bind.
  destruct (open_document d (current p) true) as [doc|e1] eqn:H1.
  - destruct (get_value doc (valno p)) as [v|e2] eqn:H2.
    + destruct (in_range p v); discriminate.
    + intros [= <-]. eapply Hget; eassumption.
  - intros [= <-]. eapply Hopen, H1.
Qed.

(** X12.  On a valid cursor that is not at its end, over a backend whose
    only exception is [DocNotFoundError], the three advancing calls always
    return, in every build: no exception leaves them, none of their
    assertions fails, and the scan comes to an end. *)
Theorem advancing_calls_return (lvl : AssertLevel) (p : ValueRangePostList)
        (d : Database) (did : docid) (w : weight) :
  valid_cursor p -> db p = Some d -> is_docid did ->
  (forall i lazy e, open_document d i lazy = Throw e -> e = DocNotFoundError) ->
  (forall i lazy doc n e, open_document d i lazy = Value doc ->
                          get_value doc n = Throw e -> e = DocNotFoundError) ->
  (exists p', next lvl w p = Returned tt p') /\
  (exists p', skip_to lvl did w p = Returned tt p') /\
  (exists valid p', check lvl did w p = Returned valid p').
Proof.
  intros Hv Hdb Hdid Hopen Hget.
  assert (Hend : at_end p = false) by (unfold at_end, db_not_null; now rewrite Hdb).
  split; [|split].
  - destruct (next_scan lvl w p d Hv Hdb) as [c _ _ _ | _ | c e _ _ Htry He].
    + eexists; reflexivity.
    + eexists; reflexivity.
    + exfalso. apply He. eapply quiet_next_try; eassumption.
  - destruct (Z.le_gt_cases did (current p)) as [Hle|Hgt].
    + exists p. apply skip_to_noop; assumption.
    + destruct (skip_to_scan lvl did w p d Hv Hdb Hdid Hgt)
        as [c _ _ _ | _ | c e _ _ Htry He].
      * eexists; reflexivity.
      * eexists; reflexivity.
      * exfalso. apply He. eapply quiet_next_try; eassumption.
  - rewrite (check_unfold lvl did w p d Hv Hdb).
    destruct (did <=? current p); [eexists; eexists; reflexivity|].
    destruct (lastdocid p <? did); [eexists; eexists; reflexivity|].
    destruct (check_try d (set_current p did)) as [[|]|e] eqn:Htry.
    + eexists; eexists; reflexivity.
    + eexists; eexists; reflexivity.
    + rewrite (quiet_check_try d (set_current p did) e Hopen Hget Htry).
      eexists; eexists; reflexivity.
Qed.

Lemma holed_db_only_not_found :
  (forall i lazy e, open_document holed_db i lazy = Throw e -> e = DocNotFoundError) /\
  (forall i lazy doc n e, open_document holed_db i lazy = Value doc ->
                          get_value doc n = Throw e -> e = DocNotFoundError).
Proof.
  split.
  - intros i lazy e. unfold holed_db, eager_database; cbn [open_document].
    destruct (find_document _ i); [discriminate | now intros [= <-]].
  - intros i lazy doc n e. unfold holed_db, eager_database; cbn [open_document].
    destruct (find_document _ i) as [x|]; [|discriminate].
    intros [= <-]. cbn. discriminate.
Qed.

Lemma advancing_calls_return_witness :
  valid_cursor holed_cursor /\ db holed_cursor = Some holed_db /\ is_docid 2 /\
  (exists p', next Assertions 0%Q holed_cursor = Returned tt p') /\
  (exists p', skip_to Assertions 2 0%Q holed_cursor = Returned tt p') /\
  (exists valid p', check Assertions 2 0%Q holed_cursor = Returned valid p').
Proof.
  assert (Hd : is_docid 2) by (unfold is_docid, docid_modulus; lia).
  split; [exact holed_cursor_valid|]. split; [reflexivity|]. split; [exact Hd|].
  exact (advancing_calls_return Assertions holed_cursor holed_db 2 0%Q
           holed_cursor_valid eq_refl Hd
           (proj1 holed_db_only_not_found) (proj2 holed_db_only_not_found)).
Defined.
